(** * ZLAC8015D: register protocol and unit conversion of the dual motor driver

    A shallow embedding of [zlac8015d/ZLAC8015D.py] (class [Controller]).

    - Register words and Python [int]s are [Z]; bit operations are the
      [Z.land]/[Z.lor]/[Z.shiftl]/[Z.shiftr] of the source.
    - Numbers a caller passes to a command (rpm, milliseconds, degrees) are
      rationals [Q]: a Python [int] is [inject_Z z], and a Python [float] is
      read as the exact rational it denotes.  [int(x)] truncates toward zero.
      Clipping, comparing and truncating are exact on Python numbers, so
      this is what the time, rpm and speed-ceiling commands compute.  The
      degree map also multiplies, divides and adds: over [Q] it is the
      exact reading of that line, and [Binary64] gives the same methods as
      the interpreter evaluates them, on ints and doubles with their
      rounding and their exceptions.
    - Feedback values are IEEE binary64 numbers ([float]), as [np.float64]
      and Python's [float] are; [np.pi] is the double nearest to pi.
    - [np.int16(w)] and [np.int32(w)] on a Python [int] reinterpret the low
      16 (32) bits as two's complement (NumPy 1.x conversion).
    - The pymodbus client is a bus that answers the k-th call with
      [replies k]; every call is appended to [calls].  A reply either has a
      [registers] attribute or has none (a [ModbusIOException] object, which
      pymodbus returns instead of raising).
    - Methods run in a state-and-exception monad over the bus; the one
      unbounded loop, in [modbus_fail_read_handler], takes fuel. *)

From Stdlib Require Import ZArith QArith Qminmax Floats Uint63 Lia Lqa String List.
From stdpp Require Import base list.
Import ListNotations.

Open Scope Z_scope.

(** ** Python and NumPy numerics *)

(** [int(x)]: truncation toward zero. *)
Definition py_int (x : Q) : Z := Z.quot (Qnum x) (Zpos (Qden x)).

(** [x > y] and [x < y] on numbers. *)
Definition py_lt (x y : Q) : bool :=
  match (x ?= y)%Q with Lt => true | _ => false end.
Definition py_gt (x y : Q) : bool := py_lt y x.

(** [np.clip(a, a_min, a_max)] is [minimum(maximum(a, a_min), a_max)]. *)
Definition np_clip (a a_min a_max : Q) : Q := Qmin (Qmax a a_min) a_max.

(** [np.int16(w)], [np.int32(w)] on a Python int. *)
Definition np_int16 (w : Z) : Z := (w + 32768) mod 65536 - 32768.
Definition np_int32 (w : Z) : Z := (w + 2147483648) mod 4294967296 - 2147483648.

(** Conversion of an integer to a double ([float(n)], and the implicit
    conversion in [n / 10.0]); exact below 2^53. *)
Definition float_of_Z (z : Z) : float :=
  match z with
  | Z0 => PrimFloat.zero
  | Zpos _ => PrimFloat.of_uint63 (Uint63.of_Z z)
  | Zneg p => PrimFloat.opp (PrimFloat.of_uint63 (Uint63.of_Z (Zpos p)))
  end.

(** [np.pi] *)
Definition np_pi : float := 0x1.921fb54442d18p+1%float.

(** ** The register client *)

Inductive request :=
| ReadHoldingRegisters (address : Z) (count : nat) (slave : Z)
| WriteRegister (address : Z) (value : Z) (slave : Z)
| WriteRegisters (address : Z) (values : list Z) (slave : Z).

(** What the client hands back: an object with a [registers] attribute, or
    one without ([ModbusIOException], an exception response, a write
    acknowledgement). *)
Inductive response :=
| NoRegisters
| WithRegisters (registers : list Z).

Record bus := Bus {
  replies : nat -> response;
  calls : list request;
  stdout : list string
}.

Inductive exn :=
| AttributeError | IndexError | TypeError
| ValueError | OverflowError | ZeroDivisionError.

Inductive outcome (A : Type) :=
| Returned (a : A)
| Raised (e : exn)
| Spinning.
Arguments Returned {A} a.
Arguments Raised {A} e.
Arguments Spinning {A}.

Definition M (A : Type) : Type := bus -> outcome A * bus.

Definition ret {A} (a : A) : M A := fun b => (Returned a, b).
Definition raise {A} (e : exn) : M A := fun b => (Raised e, b).
Definition spin {A} : M A := fun b => (Spinning, b).
Definition bind {A B} (m : M A) (k : A -> M B) : M B :=
  fun b =>
    match m b with
    | (Returned a, b') => k a b'
    | (Raised e, b') => (Raised e, b')
    | (Spinning, b') => (Spinning, b')
    end.

#[global] Instance M_ret : MRet M := @ret.
#[global] Instance M_bind : MBind M := fun A B k m => bind m k.

(** The bus after one more call, and after one more printed line. *)
Definition record_call (b : bus) (rq : request) : bus :=
  {| replies := replies b; calls := calls b ++ [rq]; stdout := stdout b |}.
Definition record_print (b : bus) (s : string) : bus :=
  {| replies := replies b; calls := calls b; stdout := stdout b ++ [s] |}.

(** The reply to the next call. *)
Definition next_reply (b : bus) : response := replies b (length (calls b)).

Definition client_call (rq : request) : M response :=
  fun b => (Returned (next_reply b), record_call b rq).

Definition print (s : string) : M unit :=
  fun b => (Returned tt, record_print b s).

(** [result.registers] *)
Definition get_registers (result : response) : M (list Z) :=
  match result with
  | NoRegisters => raise AttributeError
  | WithRegisters registers => ret registers
  end.

(** [l[i]] *)
Definition index {A} (l : list A) (i : nat) : M A :=
  match l !! i with
  | Some a => ret a
  | None => raise IndexError
  end.

(** An entry of the read buffer used as a number: [None] is not one. *)
Definition as_int (v : option Z) : M Z :=
  match v with
  | Some w => ret w
  | None => raise TypeError
  end.

(** ** Register map *)

Definition CONTROL_REG : Z := 0x200E.
Definition OPR_MODE : Z := 0x200D.
Definition L_ACL_TIME : Z := 0x2080.
Definition R_ACL_TIME : Z := 0x2081.
Definition L_DCL_TIME : Z := 0x2082.
Definition R_DCL_TIME : Z := 0x2083.

Definition L_CMD_RPM : Z := 0x2088.
Definition R_CMD_RPM : Z := 0x2089.
Definition L_FB_RPM : Z := 0x20AB.
Definition R_FB_RPM : Z := 0x20AC.

Definition POS_CONTROL_TYPE : Z := 0x200F.
Definition L_MAX_RPM_POS : Z := 0x208E.
Definition R_MAX_RPM_POS : Z := 0x208F.

Definition L_CMD_REL_POS_HI : Z := 0x208A.
Definition L_CMD_REL_POS_LO : Z := 0x208B.
Definition R_CMD_REL_POS_HI : Z := 0x208C.
Definition R_CMD_REL_POS_LO : Z := 0x208D.

Definition L_FB_POS_HI : Z := 0x20A7.
Definition L_FB_POS_LO : Z := 0x20A8.
Definition R_FB_POS_HI : Z := 0x20A9.
Definition R_FB_POS_LO : Z := 0x20AA.

Definition L_FAULT : Z := 0x20A5.
Definition R_FAULT : Z := 0x20A6.

Definition EMER_STOP : Z := 0x05.
Definition ALRM_CLR : Z := 0x06.
Definition DOWN_TIME : Z := 0x07.
Definition ENABLE : Z := 0x08.
Definition POS_SYNC : Z := 0x10.
Definition POS_L_START : Z := 0x11.
Definition POS_R_START : Z := 0x12.

Definition POS_REL_CONTROL : Z := 1.
Definition POS_ABS_CONTROL : Z := 2.
Definition VEL_CONTROL : Z := 3.

Definition ASYNC : Z := 0.
Definition SYNC : Z := 1.

Definition NO_FAULT : Z := 0x0000.
Definition OVER_VOLT : Z := 0x0001.
Definition UNDER_VOLT : Z := 0x0002.
Definition OVER_CURR : Z := 0x0004.
Definition OVER_LOAD : Z := 0x0008.
Definition CURR_OUT_TOL : Z := 0x0010.
Definition ENCOD_OUT_TOL : Z := 0x0020.
Definition MOTOR_BAD : Z := 0x0040.
Definition REF_VOLT_ERROR : Z := 0x0080.
Definition EEPROM_ERROR : Z := 0x0100.
Definition WALL_ERROR : Z := 0x0200.
Definition HIGH_TEMP : Z := 0x0400.
Definition FAULT_LIST : list Z :=
  [ OVER_VOLT; UNDER_VOLT; OVER_CURR; OVER_LOAD; CURR_OUT_TOL; ENCOD_OUT_TOL;
    MOTOR_BAD; REF_VOLT_ERROR; EEPROM_ERROR; WALL_ERROR; HIGH_TEMP ].

Definition cpr : Z := 16384.

(** [x in l] on a list of ints. *)
Definition py_in (x : Z) (l : list Z) : bool := existsb (Z.eqb x) l.

(** ** The controller *)

(** The fields of [self] that are set from [kwargs]. *)
Record Controller := {
  ID : Z;
  R_Wheel : float
}.

(** [Controller()] with no keyword argument; the radius is the double
    that the literal [0.0635] denotes. *)
Definition default_controller : Controller :=
  {| ID := 1; R_Wheel := 0x1.04189374bc6a8p-4%float |}.

(** What [set_mode] returns: the int 0, or the client's reply. *)
Inductive set_mode_result :=
| PyInt (z : Z)
| ClientReply (r : response).

(** The line [print(e)] writes for the caught [AttributeError] (its wording
    is Python's, for a [ModbusIOException] reply). *)
Definition attribute_error_text : string :=
  "'ModbusIOException' object has no attribute 'registers'".

(** The bus after [n] failed reads of the same registers. *)
Definition after_retries (b : bus) (rq : request) (n : nat) : bus :=
  {| replies := replies b;
     calls := calls b ++ replicate n rq;
     stdout := stdout b ++ replicate n attribute_error_text |}.

(** Client stubs on a fresh bus: one that answers every call with the same
    registers, and one whose first [N] answers have no [registers]. *)
Definition steady_bus (words : list Z) : bus :=
  {| replies := fun _ => WithRegisters words; calls := []; stdout := [] |}.
Definition glitching_bus (N : nat) (words : list Z) : bus :=
  {| replies := fun k => if (k <? N)%nat then NoRegisters
                         else WithRegisters words;
     calls := []; stdout := [] |}.

(** A client that never hands back [registers]. *)
Definition dead_bus : bus :=
  {| replies := fun _ => NoRegisters; calls := []; stdout := [] |}.

(** The words a call asks the client to write, and what a holding register
    can take: an unsigned 16-bit word. *)
Definition written_values (rq : request) : list Z :=
  match rq with
  | ReadHoldingRegisters _ _ _ => []
  | WriteRegister _ value _ => [value]
  | WriteRegisters _ values _ => values
  end.
(** The holding registers a call addresses: [count] consecutive ones from
    [address] on, one per value for a write. *)
Definition registers_addressed (rq : request) : list Z :=
  match rq with
  | ReadHoldingRegisters address count _ =>
      (fun i => address + Z.of_nat i) <$> seq 0 count
  | WriteRegister address _ _ => [address]
  | WriteRegisters address values _ =>
      (fun i => address + Z.of_nat i) <$> seq 0 (length values)
  end.
(** The calls a method has added to the log of [b] when it leaves the
    bus [b']. *)
Definition new_calls (b b' : bus) : list request :=
  drop (length (calls b)) (calls b').
Definition is_word (w : Z) : Prop := 0 <= w < 65536.
Definition words_ok (rq : request) : Prop := Forall is_word (written_values rq).

Section Methods.

Variable self : Controller.

Definition travel_in_one_rev : float := (2 * np_pi * R_Wheel self)%float.

Definition read_holding_registers (ADDR : Z) (WORD : nat) : M response :=
  client_call (ReadHoldingRegisters ADDR WORD (ID self)).
Definition write_register (ADDR value : Z) : M response :=
  client_call (WriteRegister ADDR value (ID self)).
Definition write_registers (ADDR : Z) (values : list Z) : M response :=
  client_call (WriteRegisters ADDR values (ID self)).

(** The body of the [try]: [for i in range(WORD): reg[i] = result.registers[i]],
    on the buffer [reg]; the exception it stops at, if any, and the buffer. *)
Fixpoint copy_registers (result : response) (range : list nat)
    (reg : list (option Z)) : option exn * list (option Z) :=
  match range with
  | [] => (None, reg)
  | i :: range' =>
      match result with
      | NoRegisters => (Some AttributeError, reg)
      | WithRegisters registers =>
          match registers !! i with
          | None => (Some IndexError, reg)
          | Some w => copy_registers result range' (<[i := Some w]> reg)
          end
      end
  end.

(** [while not read_success: ...]; only [AttributeError] is caught. *)
Fixpoint read_loop (fuel : nat) (ADDR : Z) (WORD : nat)
    (reg : list (option Z)) : M (list (option Z)) :=
  match fuel with
  | O => spin
  | S fuel' =>
      result ← read_holding_registers ADDR WORD;
      match copy_registers result (seq 0 WORD) reg with
      | (None, reg') => ret reg'
      | (Some AttributeError, reg') =>
          print attribute_error_text;; read_loop fuel' ADDR WORD reg'
      | (Some e, _) => raise e
      end
  end.

Definition modbus_fail_read_handler (fuel : nat) (ADDR : Z) (WORD : nat)
    : M (list (option Z)) :=
  read_loop fuel ADDR WORD (replicate WORD None).

Definition rpm_to_linear (rpm : float) : float :=
  (rpm * 2 * np_pi / 60 * R_Wheel self)%float.

Definition linear_to_rpm (linear : float) : float :=
  (linear / (2 * np_pi / 60 * R_Wheel self))%float.

Definition set_mode (MODE : Z) : M set_mode_result :=
  let write_mode := r ← write_register OPR_MODE MODE; ret (ClientReply r) in
  if MODE =? 1 then
    print "Set relative position control";; write_mode
  else if MODE =? 2 then
    print "Set absolute position control";; write_mode
  else if MODE =? 3 then
    print "Set speed rpm control";; write_mode
  else
    print "set_mode ERROR: set only 1, 2, or 3";; ret (PyInt 0).

Definition get_mode (fuel : nat) : M (option Z) :=
  registers ← modbus_fail_read_handler fuel OPR_MODE 1;
  mode ← index registers 0;
  ret mode.

Definition enable_motor : M response := write_register CONTROL_REG ENABLE.
Definition disable_motor : M response := write_register CONTROL_REG DOWN_TIME.
Definition clear_alarm : M response := write_register CONTROL_REG ALRM_CLR.

Definition get_fault_code : M ((bool * Z) * (bool * Z)) :=
  fault_codes ← read_holding_registers L_FAULT 2;
  registers ← get_registers fault_codes;
  L_fault_code ← index registers 0;
  registers ← get_registers fault_codes;
  R_fault_code ← index registers 1;
  let L_fault_flag := py_in L_fault_code FAULT_LIST in
  let R_fault_flag := py_in R_fault_code FAULT_LIST in
  ret ((L_fault_flag, L_fault_code), (R_fault_flag, R_fault_code)).

(** [if ms > 32767: ms = 32767 elif ms < 0: ms = 0] *)
Definition saturate_ms (ms : Q) : Q :=
  if py_gt ms 32767 then 32767%Q
  else if py_lt ms 0 then 0%Q
  else ms.

Definition set_accel_time (L_ms R_ms : Q) : M response :=
  let L_ms := saturate_ms L_ms in
  let R_ms := saturate_ms R_ms in
  write_registers L_ACL_TIME [py_int L_ms; py_int R_ms].

Definition set_decel_time (L_ms R_ms : Q) : M response :=
  let L_ms := saturate_ms L_ms in
  let R_ms := saturate_ms R_ms in
  write_registers L_DCL_TIME [py_int L_ms; py_int R_ms].

Definition to_int16 (val : Q) : Z := Z.land 0xFFFF (py_int val).

Definition set_rpm (L_rpm R_rpm : Q) : M response :=
  let left_bytes := to_int16 (np_clip L_rpm (-3000) 3000) in
  let right_bytes := to_int16 (np_clip R_rpm (-3000) 3000) in
  write_registers L_CMD_RPM [left_bytes; right_bytes].

Definition get_rpm (fuel : nat) : M (float * float) :=
  registers ← modbus_fail_read_handler fuel L_FB_RPM 2;
  r0 ← index registers 0;
  w0 ← as_int r0;
  let fb_L_rpm := (float_of_Z (np_int16 w0) / 10)%float in
  r1 ← index registers 1;
  w1 ← as_int r1;
  let fb_R_rpm := (float_of_Z (np_int16 w1) / 10)%float in
  ret (fb_L_rpm, fb_R_rpm).

Definition get_linear_velocities (fuel : nat) : M (float * float) :=
  '(rpmL, rpmR) ← get_rpm fuel;
  let VL := rpm_to_linear rpmL in
  let VR := rpm_to_linear (- rpmR)%float in
  ret (VL, VR).

(** The line of [map] read over the rationals (no rounding); see
    [Binary64.map] for its evaluation on Python numbers. *)
Definition map (val in_min in_max out_min out_max : Q) : Q :=
  ((val - in_min) * (out_max - out_min) / (in_max - in_min) + out_min)%Q.

Definition set_maxRPM_pos (max_L_rpm max_R_rpm : Q) : M response :=
  let max_L_rpm := np_clip max_L_rpm 1 1000 in
  let max_R_rpm := np_clip max_R_rpm 1 1000 in
  write_registers L_MAX_RPM_POS [py_int max_L_rpm; py_int max_R_rpm].

Definition set_position_async_control : M response :=
  write_register POS_CONTROL_TYPE ASYNC.
Definition move_left_wheel : M response :=
  write_register CONTROL_REG POS_L_START.
Definition move_right_wheel : M response :=
  write_register CONTROL_REG POS_R_START.

Definition deg_to_32bitArray (deg : Q) : list Z :=
  let dec := py_int (map deg (-1440) 1440 (-65536) 65536) in
  let HI_WORD := Z.shiftr (Z.land dec 0xFFFF0000) 16 in
  let LO_WORD := Z.land dec 0x0000FFFF in
  [HI_WORD; LO_WORD].

Definition set_relative_angle (ang_L ang_R : Q) : M response :=
  let L_array := deg_to_32bitArray ang_L in
  let R_array := deg_to_32bitArray ang_R in
  let all_cmds_array := L_array ++ R_array in
  write_registers L_CMD_REL_POS_HI all_cmds_array.

(** [np.int32(((hi & 0xFFFF) << 16) | (lo & 0xFFFF))], the expression that
    [get_wheels_travelled] and [get_wheels_tick] apply to each axis. *)
Definition pulse (pul_hi pul_lo : Z) : Z :=
  np_int32 (Z.lor (Z.shiftl (Z.land pul_hi 0xFFFF) 16) (Z.land pul_lo 0xFFFF)).

Definition get_wheels_travelled (fuel : nat) : M (float * float) :=
  registers ← modbus_fail_read_handler fuel L_FB_POS_HI 4;
  l_pul_hi ← index registers 0;
  l_pul_lo ← index registers 1;
  r_pul_hi ← index registers 2;
  r_pul_lo ← index registers 3;
  l_hi ← as_int l_pul_hi;
  l_lo ← as_int l_pul_lo;
  let l_pulse := pulse l_hi l_lo in
  r_hi ← as_int r_pul_hi;
  r_lo ← as_int r_pul_lo;
  let r_pulse := pulse r_hi r_lo in
  let l_travelled :=
    (float_of_Z l_pulse / float_of_Z cpr * travel_in_one_rev)%float in
  let r_travelled :=
    (float_of_Z r_pulse / float_of_Z cpr * travel_in_one_rev)%float in
  ret (l_travelled, r_travelled).

Definition get_wheels_tick (fuel : nat) : M (Z * Z) :=
  registers ← modbus_fail_read_handler fuel L_FB_POS_HI 4;
  l_pul_hi ← index registers 0;
  l_pul_lo ← index registers 1;
  r_pul_hi ← index registers 2;
  r_pul_lo ← index registers 3;
  l_hi ← as_int l_pul_hi;
  l_lo ← as_int l_pul_lo;
  let l_tick := pulse l_hi l_lo in
  r_hi ← as_int r_pul_hi;
  r_lo ← as_int r_pul_lo;
  let r_tick := pulse r_hi r_lo in
  ret (l_tick, r_tick).

End Methods.

(** ** The angle command in Python's arithmetic

    [map], [deg_to_32bitArray] and [set_relative_angle] above read the
    degree map over the rationals, with no rounding.  The interpreter
    evaluates it step by step on Python numbers: an [int] is exact, a
    [float] is a binary64 number, [int / int] is the correctly rounded
    quotient, an [int] meeting a [float] is converted first, and [int()] of
    a float truncates, or raises on NaN and on an infinity.  [Binary64]
    holds the same three methods in that arithmetic. *)

#[global] Instance outcome_ret : MRet outcome := @Returned.
#[global] Instance outcome_bind : MBind outcome :=
  fun A B k m =>
    match m with
    | Returned a => k a
    | Raised e => Raised e
    | Spinning => Spinning
    end.

(** A computation that does not touch the bus. *)
Definition lift {A} (o : outcome A) : M A := fun b => (o, b).

Module Binary64.

Inductive pynum :=
| PyLong (z : Z)
| PyFloat (f : float).

(** A rounded result as a Python float: an infinity out of an integer
    operation is an [OverflowError]. *)
Definition float_of_spec (sf : spec_float) : outcome float :=
  match sf with
  | S754_infinity _ => Raised OverflowError
  | _ => Returned (SF2Prim sf)
  end.

(** [float(n)] for an int: the nearest double, ties to even. *)
Definition float_of_int (z : Z) : outcome float :=
  float_of_spec (SpecFloat.binary_normalize prec emax z 0 false).

(** [a / b] on two ints: the correctly rounded quotient. *)
Definition int_true_divide (a b : Z) : outcome float :=
  if b =? 0 then Raised ZeroDivisionError
  else match a with
       | Z0 => Returned (if b <? 0 then neg_zero else zero)
       | _ =>
           float_of_spec
             (SFdiv prec emax
                (S754_finite (a <? 0) (Z.to_pos (Z.abs a)) 0)
                (S754_finite (b <? 0) (Z.to_pos (Z.abs b)) 0))
       end.

Definition as_float (x : pynum) : outcome float :=
  match x with
  | PyLong z => float_of_int z
  | PyFloat f => Returned f
  end.

(** [x - y], [x * y], [x + y]: exact on two ints, in doubles otherwise. *)
Definition arith (on_int : Z -> Z -> Z) (on_float : float -> float -> float)
    (x y : pynum) : outcome pynum :=
  match x, y with
  | PyLong a, PyLong b => Returned (PyLong (on_int a b))
  | _, _ =>
      fx ← as_float x;
      fy ← as_float y;
      Returned (PyFloat (on_float fx fy))
  end.
Definition py_sub : pynum -> pynum -> outcome pynum :=
  arith Z.sub PrimFloat.sub.
Definition py_mul : pynum -> pynum -> outcome pynum :=
  arith Z.mul PrimFloat.mul.
Definition py_add : pynum -> pynum -> outcome pynum :=
  arith Z.add PrimFloat.add.

(** [x / y] *)
Definition py_truediv (x y : pynum) : outcome pynum :=
  match x, y with
  | PyLong a, PyLong b => f ← int_true_divide a b; Returned (PyFloat f)
  | _, _ =>
      fx ← as_float x;
      fy ← as_float y;
      if (fy =? 0)%float then Raised ZeroDivisionError
      else Returned (PyFloat (fx / fy)%float)
  end.

(** [int(x)] *)
Definition int_of_float (f : float) : outcome Z :=
  match Prim2SF f with
  | S754_nan => Raised ValueError
  | S754_infinity _ => Raised OverflowError
  | S754_zero _ => Returned 0
  | S754_finite s m e =>
      let v := if 0 <=? e then Z.shiftl (Zpos m) e
               else Z.shiftr (Zpos m) (- e) in
      Returned (if s then - v else v)
  end.
Definition py_int (x : pynum) : outcome Z :=
  match x with
  | PyLong z => Returned z
  | PyFloat f => int_of_float f
  end.

Definition map (val in_min in_max out_min out_max : pynum) : outcome pynum :=
  a ← py_sub val in_min;
  w ← py_sub out_max out_min;
  p ← py_mul a w;
  d ← py_sub in_max in_min;
  q ← py_truediv p d;
  py_add q out_min.

(** The first line of [deg_to_32bitArray]:
    [dec = int(self.map(deg, -1440, 1440, -65536, 65536))]. *)
Definition dec_of (deg : pynum) : outcome Z :=
  m ← map deg (PyLong (-1440)) (PyLong 1440) (PyLong (-65536)) (PyLong 65536);
  py_int m.

Definition deg_to_32bitArray (deg : pynum) : outcome (list Z) :=
  dec ← dec_of deg;
  let HI_WORD := Z.shiftr (Z.land dec 0xFFFF0000) 16 in
  let LO_WORD := Z.land dec 0x0000FFFF in
  Returned [HI_WORD; LO_WORD].

Definition set_relative_angle (self : Controller) (ang_L ang_R : pynum)
    : M response :=
  L_array ← lift (deg_to_32bitArray ang_L);
  R_array ← lift (deg_to_32bitArray ang_R);
  let all_cmds_array := L_array ++ R_array in
  write_registers self L_CMD_REL_POS_HI all_cmds_array.

End Binary64.

(** [f] holds on the [2 ^ k] integers from [lo] on. *)
Fixpoint all_pow (f : Z -> bool) (lo : Z) (k : nat) : bool :=
  match k with
  | O => f lo
  | S k' => all_pow f lo k' && all_pow f (lo + 2 ^ Z.of_nat k') k'
  end.

(** The count Python computes for [deg] is [c]. *)
Definition count_is (deg c : Z) : bool :=
  match Binary64.dec_of (Binary64.PyLong deg) with
  | Returned dec => dec =? c
  | _ => false
  end.


(** * Properties *)

(** Opens the monadic plumbing of a method down to the bus. *)
Ltac open_monad :=
  unfold mbind, M_bind, bind, read_holding_registers, write_register,
    write_registers, client_call.

(** ** The read buffer *)

Section ReadBuffer.

Context (self : Controller).

(** Copying from a reply that has enough registers fills the buffer, in
    index order, with the reply's words. *)
Lemma copy_registers_fills (words : list Z) :
  forall (n i : nat) (reg : list (option Z)),
    (i + n)%nat = length words ->
    length reg = length words ->
    take i reg = Some <$> take i words ->
    copy_registers (WithRegisters words) (seq i n) reg
    = (None, Some <$> words).
Proof.
  induction n as [|n IH]; intros i reg Hin Hlen Htake; simpl.
  - rewrite Nat.add_0_r in Hin. subst i.
    rewrite take_ge in Htake by lia.
    rewrite take_ge in Htake by lia.
    now rewrite Htake.
  - destruct (lookup_lt_is_Some_2 words i) as [w Hw]; [lia|].
    rewrite Hw. apply IH.
    + lia.
    + now rewrite length_insert.
    + rewrite (take_S_r words i w Hw), fmap_app, <- Htake. simpl.
      erewrite take_S_r.
      * now rewrite take_insert_ge by lia.
      * apply list_lookup_insert_eq. lia.
Qed.

(** A reply without [registers] stops the copy at its first step, the
    buffer untouched, as soon as there is a step to take. *)
Lemma copy_registers_no_attribute (WORD : nat) (reg : list (option Z)) :
  (0 < WORD)%nat ->
  copy_registers NoRegisters (seq 0 WORD) reg = (Some AttributeError, reg).
Proof. destruct WORD; [lia | reflexivity]. Qed.

(** A reply with too few registers stops the copy with [IndexError]. *)
Lemma copy_registers_short (words : list Z) :
  forall (n i : nat) (reg : list (option Z)),
    (length words < i + n)%nat ->
    (i <= length words)%nat ->
    exists reg', copy_registers (WithRegisters words) (seq i n) reg
                 = (Some IndexError, reg').
Proof.
  induction n as [|n IH]; intros i reg Hlt Hle; simpl; [lia|].
  destruct (words !! i) as [w|] eqn:Hw.
  - apply IH; [lia|]. apply lookup_lt_Some in Hw. lia.
  - eauto.
Qed.

(** One turn of the loop on a reply without [registers]: the line is
    printed and the read is issued again, with one unit of fuel less. *)
Lemma read_loop_retry (fuel : nat) (ADDR : Z) (WORD : nat)
    (reg : list (option Z)) (b : bus) :
  (0 < WORD)%nat ->
  next_reply b = NoRegisters ->
  read_loop self (S fuel) ADDR WORD reg b
  = read_loop self fuel ADDR WORD reg
      (record_print
         (record_call b (ReadHoldingRegisters ADDR WORD (ID self)))
         attribute_error_text).
Proof.
  intros HW Hr. simpl.
  open_monad.
  rewrite Hr, copy_registers_no_attribute by assumption. reflexivity.
Qed.

Lemma read_loop_succeeds (ADDR : Z) (WORD : nat) (words : list Z) :
  (0 < WORD)%nat ->
  length words = WORD ->
  forall (N fuel : nat) (b : bus),
    (forall k, (k < N)%nat ->
               replies b (length (calls b) + k) = NoRegisters) ->
    replies b (length (calls b) + N) = WithRegisters words ->
    (N < fuel)%nat ->
    read_loop self fuel ADDR WORD (replicate WORD None) b
    = (Returned (Some <$> words),
       record_call
         (after_retries b (ReadHoldingRegisters ADDR WORD (ID self)) N)
         (ReadHoldingRegisters ADDR WORD (ID self))).
Proof.
  intros HW Hlen.
  induction N as [|N IH]; intros fuel b Hbad Hgood Hfuel;
    (destruct fuel as [|fuel]; [lia|]).
  - simpl.
    open_monad. unfold next_reply.
    rewrite Nat.add_0_r in Hgood. rewrite Hgood.
    rewrite copy_registers_fills.
    + unfold ret, record_call, after_retries. simpl.
      now rewrite !app_nil_r.
    + lia.
    + rewrite length_replicate. lia.
    + reflexivity.
  - rewrite read_loop_retry.
    + rewrite IH.
      * unfold record_call, record_print, after_retries. simpl.
        rewrite <- !app_assoc. reflexivity.
      * intros k Hk. simpl. rewrite length_app. simpl.
        replace (length (calls b) + 1 + k)%nat
          with (length (calls b) + S k)%nat by lia.
        apply Hbad. lia.
      * simpl. rewrite length_app. simpl.
        replace (length (calls b) + 1 + N)%nat
          with (length (calls b) + S N)%nat by lia.
        exact Hgood.
      * lia.
    + assumption.
    + unfold next_reply.
      rewrite <- (Nat.add_0_r (length (calls b))). apply Hbad. lia.
Qed.

Lemma record_call_after_retries (b : bus) (rq : request) (N : nat) :
  record_call (after_retries b rq N) rq
  = {| replies := replies b;
       calls := calls b ++ replicate (S N) rq;
       stdout := stdout b ++ replicate N attribute_error_text |}.
Proof.
  unfold record_call, after_retries. cbn [replies calls stdout].
  now rewrite replicate_S_end, app_assoc.
Qed.

End ReadBuffer.

(** ** Read with retry *)

(** C6.  If the client hands back objects without [registers] for the next
    [N] reads and then a reply with exactly [WORD] registers, the handler
    returns (any fuel above [N] suffices) a buffer holding exactly those
    words, after exactly [N + 1] reads of the same [WORD] registers and [N]
    printed lines.  [WORD] is at least 1, as in every read of the driver
    (1, 2 or 4 words). *)
Theorem modbus_fail_read_handler_retries
    (self : Controller) (ADDR : Z) (WORD N : nat) (words : list Z)
    (fuel : nat) (b : bus) :
  (0 < WORD)%nat ->
  (forall k, (k < N)%nat -> replies b (length (calls b) + k) = NoRegisters) ->
  replies b (length (calls b) + N) = WithRegisters words ->
  length words = WORD ->
  (N < fuel)%nat ->
  modbus_fail_read_handler self fuel ADDR WORD b
  = (Returned (Some <$> words),
     {| replies := replies b;
        calls := calls b
                 ++ replicate (S N) (ReadHoldingRegisters ADDR WORD (ID self));
        stdout := stdout b ++ replicate N attribute_error_text |}).
Proof.
  intros HW Hbad Hgood Hlen Hfuel.
  unfold modbus_fail_read_handler.
  rewrite (read_loop_succeeds self ADDR WORD words HW Hlen N fuel b)
    by assumption.
  now rewrite record_call_after_retries.
Qed.

Lemma modbus_fail_read_handler_retries_witness :
  modbus_fail_read_handler default_controller 3 L_FB_RPM 2
    (glitching_bus 2 [100; 65436])
  = (Returned [Some 100; Some 65436],
     {| replies := replies (glitching_bus 2 [100; 65436]);
        calls := replicate 3 (ReadHoldingRegisters L_FB_RPM 2 1);
        stdout := replicate 2 attribute_error_text |}).
Proof.
  apply (modbus_fail_read_handler_retries default_controller L_FB_RPM 2 2
           [100; 65436] 3 (glitching_bus 2 [100; 65436])).
  - lia.
  - intros [|[|k]] Hk; [reflexivity | reflexivity | lia].
  - reflexivity.
  - reflexivity.
  - lia.
Defined.

(** A read of no word at all never looks at the reply: it returns the empty
    buffer after one call. *)
Lemma modbus_fail_read_handler_no_word
    (self : Controller) (fuel : nat) (ADDR : Z) (b : bus) :
  modbus_fail_read_handler self (S fuel) ADDR 0 b
  = (Returned [], record_call b (ReadHoldingRegisters ADDR 0 (ID self))).
Proof. reflexivity. Qed.

(** A reply that has [registers], but fewer than asked for, is not retried:
    the [IndexError] leaves the handler. *)
Lemma modbus_fail_read_handler_short_reply
    (self : Controller) (fuel : nat) (ADDR : Z) (WORD : nat)
    (words : list Z) (b : bus) :
  next_reply b = WithRegisters words ->
  (length words < WORD)%nat ->
  modbus_fail_read_handler self (S fuel) ADDR WORD b
  = (Raised IndexError,
     record_call b (ReadHoldingRegisters ADDR WORD (ID self))).
Proof.
  intros Hr Hlen. unfold modbus_fail_read_handler. simpl.
  open_monad.
  rewrite Hr.
  destruct (copy_registers_short words WORD 0 (replicate WORD None))
    as [reg' ->]; [lia | lia | reflexivity].
Qed.

(** Nothing bounds the loop: against a client that never hands back
    [registers], no amount of fuel lets the handler return. *)
Lemma modbus_fail_read_handler_spins
    (self : Controller) (ADDR : Z) (WORD : nat) :
  (0 < WORD)%nat ->
  forall (fuel : nat) (b : bus),
    (forall k, replies b (length (calls b) + k) = NoRegisters) ->
    fst (modbus_fail_read_handler self fuel ADDR WORD b) = Spinning.
Proof.
  intros HW. unfold modbus_fail_read_handler.
  generalize (replicate WORD (@None Z)). intros reg fuel. revert reg.
  induction fuel as [|fuel IH]; intros reg b Hbad; [reflexivity|].
  rewrite read_loop_retry.
  - apply IH. intros k. simpl. rewrite length_app. simpl.
    replace (length (calls b) + 1 + k)%nat
      with (length (calls b) + S k)%nat by lia.
    apply Hbad.
  - assumption.
  - unfold next_reply. rewrite <- (Nat.add_0_r (length (calls b))).
    apply Hbad.
Qed.

(** ** Fault query *)

Lemma py_in_In (x : Z) (l : list Z) : py_in x l = true <-> In x l.
Proof.
  unfold py_in. rewrite existsb_exists. split.
  - intros [y [Hy Heq]]. apply Z.eqb_eq in Heq. now subst.
  - intros H. exists x. split; [assumption | apply Z.eqb_refl].
Qed.

Lemma FAULT_LIST_single_bits (w : Z) :
  In w FAULT_LIST <-> exists k, 0 <= k <= 10 /\ w = 2 ^ k.
Proof.
  split.
  - unfold FAULT_LIST. simpl.
    intros [H|[H|[H|[H|[H|[H|[H|[H|[H|[H|[H|[]]]]]]]]]]]]; subst w.
    + now exists 0. + now exists 1. + now exists 2. + now exists 3.
    + now exists 4. + now exists 5. + now exists 6. + now exists 7.
    + now exists 8. + now exists 9. + now exists 10.
  - intros [k [Hk ->]].
    assert (k = 0 \/ k = 1 \/ k = 2 \/ k = 3 \/ k = 4 \/ k = 5 \/ k = 6
            \/ k = 7 \/ k = 8 \/ k = 9 \/ k = 10) as Hcases by lia.
    unfold FAULT_LIST. simpl.
    repeat (destruct Hcases as [->|Hcases]; [tauto|]). subst k. tauto.
Qed.

(** The bus is left with one more call, whatever the reply was. *)
Lemma get_fault_code_one_read (self : Controller) (b : bus) :
  snd (get_fault_code self b)
  = record_call b (ReadHoldingRegisters L_FAULT 2 (ID self)).
Proof.
  unfold get_fault_code. open_monad.
  destruct (next_reply b) as [|[|L [|R rest]]]; reflexivity.
Qed.

(** C1.  On a reply with the two fault words, [get_fault_code] pairs each
    word with its flag, and the flag is membership in [FAULT_LIST]: true
    exactly for the eleven single-bit words 2^0 .. 2^10.  The word 0 is not
    a fault, and no other word outside the list is, such as 3 or 0x0800. *)
Theorem get_fault_code_flags_membership
    (self : Controller) (b : bus) (L_fault_code R_fault_code : Z)
    (rest : list Z) :
  next_reply b = WithRegisters (L_fault_code :: R_fault_code :: rest) ->
  get_fault_code self b
  = (Returned ((py_in L_fault_code FAULT_LIST, L_fault_code),
               (py_in R_fault_code FAULT_LIST, R_fault_code)),
     record_call b (ReadHoldingRegisters L_FAULT 2 (ID self)))
  /\ length FAULT_LIST = 11%nat
  /\ (forall w, py_in w FAULT_LIST = true
                <-> exists k, 0 <= k <= 10 /\ w = 2 ^ k)
  /\ py_in 0x0000 FAULT_LIST = false
  /\ py_in 0x0001 FAULT_LIST = true
  /\ py_in 0x0400 FAULT_LIST = true
  /\ py_in 0x0003 FAULT_LIST = false
  /\ py_in 0x0800 FAULT_LIST = false
  /\ (forall w, w <> 0 -> ~ In w FAULT_LIST -> py_in w FAULT_LIST = false).
Proof.
  intros Hr. repeat split; try reflexivity.
  - unfold get_fault_code. open_monad.
    now rewrite Hr.
  - intros H. now apply FAULT_LIST_single_bits, py_in_In.
  - intros H. now apply py_in_In, FAULT_LIST_single_bits.
  - intros w _ Hw. destruct (py_in w FAULT_LIST) eqn:E; [|reflexivity].
    now apply py_in_In in E.
Qed.

Lemma get_fault_code_flags_membership_witness :
  get_fault_code default_controller (steady_bus [0x0003; 0x0400])
  = (Returned ((false, 0x0003), (true, 0x0400)),
     record_call (steady_bus [0x0003; 0x0400])
       (ReadHoldingRegisters L_FAULT 2 1)).
Proof.
  exact (proj1 (get_fault_code_flags_membership default_controller
                  (steady_bus [0x0003; 0x0400]) 0x0003 0x0400 []
                  eq_refl)).
Defined.

(** C10.  The fault query reads the two fault registers once and does not go
    through the retrying handler: when the reply has no [registers], the
    [AttributeError] leaves [get_fault_code] after that single read, while
    on the same reply every other feedback read prints and reads again. *)
Theorem get_fault_code_does_not_retry (self : Controller) (b : bus) :
  next_reply b = NoRegisters ->
  get_fault_code self b
  = (Raised AttributeError,
     record_call b (ReadHoldingRegisters L_FAULT 2 (ID self)))
  /\ (forall b', snd (get_fault_code self b')
                 = record_call b' (ReadHoldingRegisters L_FAULT 2 (ID self)))
  /\ (forall fuel,
        get_mode self (S fuel) b
        = get_mode self fuel
            (record_print
               (record_call b (ReadHoldingRegisters OPR_MODE 1 (ID self)))
               attribute_error_text))
  /\ (forall fuel,
        get_rpm self (S fuel) b
        = get_rpm self fuel
            (record_print
               (record_call b (ReadHoldingRegisters L_FB_RPM 2 (ID self)))
               attribute_error_text))
  /\ (forall fuel,
        get_wheels_travelled self (S fuel) b
        = get_wheels_travelled self fuel
            (record_print
               (record_call b (ReadHoldingRegisters L_FB_POS_HI 4 (ID self)))
               attribute_error_text))
  /\ (forall fuel,
        get_wheels_tick self (S fuel) b
        = get_wheels_tick self fuel
            (record_print
               (record_call b (ReadHoldingRegisters L_FB_POS_HI 4 (ID self)))
               attribute_error_text)).
Proof.
  intros Hr. split; [|split; [|repeat split]].
  - unfold get_fault_code. open_monad.
    now rewrite Hr.
  - intros b'. apply get_fault_code_one_read.
  - intros fuel.
    unfold get_mode, modbus_fail_read_handler. open_monad.
    rewrite read_loop_retry by (assumption || lia). reflexivity.
  - intros fuel.
    unfold get_rpm, modbus_fail_read_handler. open_monad.
    rewrite read_loop_retry by (assumption || lia). reflexivity.
  - intros fuel.
    unfold get_wheels_travelled, modbus_fail_read_handler. open_monad.
    rewrite read_loop_retry by (assumption || lia). reflexivity.
  - intros fuel.
    unfold get_wheels_tick, modbus_fail_read_handler. open_monad.
    rewrite read_loop_retry by (assumption || lia). reflexivity.
Qed.

Lemma get_fault_code_does_not_retry_witness :
  get_fault_code default_controller (glitching_bus 1 [0; 0])
  = (Raised AttributeError,
     record_call (glitching_bus 1 [0; 0]) (ReadHoldingRegisters L_FAULT 2 1)).
Proof.
  exact (proj1 (get_fault_code_does_not_retry default_controller
                  (glitching_bus 1 [0; 0]) eq_refl)).
Defined.

(** ** Mode *)

(** C5.  A mode other than 1, 2 and 3 is refused before any call reaches
    the client: the error line is printed and the int 0 is returned in
    place of a client reply.  For 1, 2 or 3 one line is printed and exactly
    one [write_register] of that value to [OPR_MODE] is issued, whose reply
    is returned. *)
Theorem set_mode_validates (self : Controller) (MODE : Z) (b : bus) :
  (MODE <> 1 -> MODE <> 2 -> MODE <> 3 ->
   set_mode self MODE b
   = (Returned (PyInt 0),
      record_print b "set_mode ERROR: set only 1, 2, or 3")
   /\ calls (snd (set_mode self MODE b)) = calls b)
  /\ (MODE = 1 \/ MODE = 2 \/ MODE = 3 ->
      (exists line,
         set_mode self MODE b
         = (Returned (ClientReply (next_reply b)),
            record_call (record_print b line)
              (WriteRegister OPR_MODE MODE (ID self))))
      /\ calls (snd (set_mode self MODE b))
         = calls b ++ [WriteRegister OPR_MODE MODE (ID self)]).
Proof.
  split.
  - intros H1 H2 H3. unfold set_mode.
    destruct (Z.eqb_spec MODE 1); [contradiction|].
    destruct (Z.eqb_spec MODE 2); [contradiction|].
    destruct (Z.eqb_spec MODE 3); [contradiction|].
    split; reflexivity.
  - intros [-> | [-> | ->]]; (split; [eexists |]; reflexivity).
Qed.

Lemma set_mode_validates_witness :
  (set_mode default_controller 4 (steady_bus [])
   = (Returned (PyInt 0),
      record_print (steady_bus []) "set_mode ERROR: set only 1, 2, or 3")
   /\ calls (snd (set_mode default_controller 4 (steady_bus []))) = [])
  /\ calls (snd (set_mode default_controller 3 (steady_bus [])))
     = [WriteRegister 0x200D 3 1].
Proof.
  split.
  - apply (proj1 (set_mode_validates default_controller 4 (steady_bus [])));
      lia.
  - apply (proj2 (set_mode_validates default_controller 3 (steady_bus []))).
    right. right. reflexivity.
Defined.

(** ** Truncation and clipping *)

Lemma py_int_inject_Z (z : Z) : py_int (inject_Z z) = z.
Proof. unfold py_int. simpl. apply Z.quot_1_r. Qed.

Lemma py_int_mono (x y : Q) : (x <= y)%Q -> py_int x <= py_int y.
Proof.
  destruct x as [nx dx], y as [ny dy]. unfold Qle, py_int. simpl. intros H.
  rewrite <- (Z.quot_mul_cancel_r nx (Zpos dx) (Zpos dy)) by lia.
  rewrite <- (Z.quot_mul_cancel_r ny (Zpos dy) (Zpos dx)) by lia.
  rewrite (Z.mul_comm (Zpos dy) (Zpos dx)).
  apply Z.quot_le_mono; lia.
Qed.

Lemma py_int_Qeq (x y : Q) : (x == y)%Q -> py_int x = py_int y.
Proof.
  intros H. apply Z.le_antisymm; apply py_int_mono; rewrite H; apply Qle_refl.
Qed.

Lemma py_int_between (x : Q) (lo hi : Z) :
  (inject_Z lo <= x)%Q -> (x <= inject_Z hi)%Q -> lo <= py_int x <= hi.
Proof.
  intros Hlo Hhi. split.
  - rewrite <- (py_int_inject_Z lo). now apply py_int_mono.
  - rewrite <- (py_int_inject_Z hi). now apply py_int_mono.
Qed.

Lemma py_lt_true (x y : Q) : py_lt x y = true <-> (x < y)%Q.
Proof.
  unfold py_lt. rewrite Qlt_alt. destruct (x ?= y)%Q; split; congruence.
Qed.

Lemma py_lt_false (x y : Q) : py_lt x y = false <-> (y <= x)%Q.
Proof.
  rewrite <- not_true_iff_false, py_lt_true. split.
  - apply Qnot_lt_le.
  - apply Qle_not_lt.
Qed.

Lemma np_clip_above (a a_min a_max : Q) :
  (a_min <= a_max)%Q -> (a_max < a)%Q -> (np_clip a a_min a_max == a_max)%Q.
Proof.
  intros Hb Ha. unfold np_clip.
  apply Q.min_r. apply Q.max_le_iff. left. now apply Qlt_le_weak.
Qed.

Lemma np_clip_below (a a_min a_max : Q) :
  (a_min <= a_max)%Q -> (a < a_min)%Q -> (np_clip a a_min a_max == a_min)%Q.
Proof.
  intros Hb Ha. unfold np_clip.
  rewrite (Q.max_r a a_min) by now apply Qlt_le_weak.
  now apply Q.min_l.
Qed.

Lemma np_clip_inside (a a_min a_max : Q) :
  (a_min <= a)%Q -> (a <= a_max)%Q -> (np_clip a a_min a_max == a)%Q.
Proof.
  intros Hlo Hhi. unfold np_clip.
  rewrite (Q.max_l a a_min) by assumption.
  now apply Q.min_l.
Qed.

Lemma np_clip_range (a a_min a_max : Q) :
  (a_min <= a_max)%Q ->
  (a_min <= np_clip a a_min a_max)%Q /\ (np_clip a a_min a_max <= a_max)%Q.
Proof.
  intros Hb. unfold np_clip. split.
  - apply Q.min_glb; [apply Q.le_max_r | assumption].
  - apply Q.le_min_r.
Qed.

Lemma land_0xFFFF (z : Z) : Z.land 0xFFFF z = z mod 65536.
Proof.
  rewrite Z.land_comm. change 0xFFFF with (Z.ones 16).
  now rewrite Z.land_ones by lia.
Qed.

(** ** Speed command *)

Lemma to_int16_twos_complement (val : Q) :
  to_int16 val = py_int val mod 65536.
Proof. apply land_0xFFFF. Qed.

Lemma to_int16_Qeq (x y : Q) : (x == y)%Q -> to_int16 x = to_int16 y.
Proof. intros H. unfold to_int16. now rewrite (py_int_Qeq x y H). Qed.

(** C3.  [set_rpm] issues one [write_registers] of two words at
    [L_CMD_RPM]; each word is the rpm clipped to [-3000, 3000], truncated,
    and taken as unsigned 16-bit two's complement (a negative value [v]
    becomes [v + 65536]).  An rpm above 3000 gives the word of 3000, one
    below -3000 the word of -3000, and [set_rpm(500, -500)] writes
    [500, 65036]. *)
Theorem set_rpm_clips_and_wraps
    (self : Controller) (L_rpm R_rpm : Q) (b : bus) :
  set_rpm self L_rpm R_rpm b
  = (Returned (next_reply b),
     record_call b
       (WriteRegisters L_CMD_RPM
          [to_int16 (np_clip L_rpm (-3000) 3000);
           to_int16 (np_clip R_rpm (-3000) 3000)]
          (ID self)))
  /\ (forall rpm : Q,
        let v := py_int (np_clip rpm (-3000) 3000) in
        to_int16 (np_clip rpm (-3000) 3000) = Z.land 0xFFFF v
        /\ -3000 <= v <= 3000
        /\ (0 <= v -> Z.land 0xFFFF v = v)
        /\ (v < 0 -> Z.land 0xFFFF v = v + 65536))
  /\ (forall rpm : Q, (-3000 <= rpm <= 3000)%Q ->
        py_int (np_clip rpm (-3000) 3000) = py_int rpm)
  /\ (forall rpm : Q, (3000 < rpm)%Q ->
        to_int16 (np_clip rpm (-3000) 3000)
        = to_int16 (np_clip 3000 (-3000) 3000)
        /\ to_int16 (np_clip rpm (-3000) 3000) = 3000)
  /\ (forall rpm : Q, (rpm < -3000)%Q ->
        to_int16 (np_clip rpm (-3000) 3000)
        = to_int16 (np_clip (-3000) (-3000) 3000)
        /\ to_int16 (np_clip rpm (-3000) 3000) = 62536)
  /\ set_rpm self 500 (-500) b
     = (Returned (next_reply b),
        record_call b (WriteRegisters 0x2088 [500; 65036] (ID self))).
Proof.
  split; [reflexivity|]. split; [|split; [|split; [|split]]].
  - intros rpm v.
    assert (-3000 <= v <= 3000) as Hv.
    { subst v. destruct (np_clip_range rpm (-3000) 3000) as [Hlo Hhi];
        [discriminate|].
      now apply py_int_between. }
    split; [reflexivity|].
    split; [exact Hv|]. rewrite land_0xFFFF. split; intros Hs.
    + apply Z.mod_small. lia.
    + rewrite <- (Z.mod_add v 1 65536) by lia. apply Z.mod_small. lia.
  - intros rpm [Hlo Hhi]. apply py_int_Qeq. now apply np_clip_inside.
  - intros rpm Hrpm.
    assert (to_int16 (np_clip rpm (-3000) 3000) = to_int16 3000) as E.
    { apply to_int16_Qeq. apply np_clip_above; [discriminate | assumption]. }
    rewrite E. split; reflexivity.
  - intros rpm Hrpm.
    assert (to_int16 (np_clip rpm (-3000) 3000) = to_int16 (-3000)) as E.
    { apply to_int16_Qeq. apply np_clip_below; [discriminate | assumption]. }
    rewrite E. split; reflexivity.
  - reflexivity.
Qed.

Lemma set_rpm_clips_and_wraps_witness :
  (3000 < 5000)%Q /\ to_int16 (np_clip 5000 (-3000) 3000) = 3000.
Proof.
  split; [reflexivity|].
  apply (proj1 (proj2 (proj2 (proj2 (set_rpm_clips_and_wraps
           default_controller 0 0 (steady_bus []))))) 5000%Q).
  reflexivity.
Defined.

(** ** Acceleration and deceleration times *)

Lemma saturate_ms_cases (ms : Q) :
  ((32767 < ms)%Q /\ saturate_ms ms = 32767%Q)
  \/ ((ms < 0)%Q /\ saturate_ms ms = 0%Q)
  \/ ((0 <= ms <= 32767)%Q /\ saturate_ms ms = ms).
Proof.
  unfold saturate_ms, py_gt.
  destruct (py_lt 32767 ms) eqn:Hhi.
  - left. now apply py_lt_true in Hhi.
  - apply py_lt_false in Hhi. destruct (py_lt ms 0) eqn:Hlo.
    + right. left. now apply py_lt_true in Hlo.
    + right. right. apply py_lt_false in Hlo. auto.
Qed.

(** C8.  [set_accel_time] and [set_decel_time] each issue one
    [write_registers] of two words (at [L_ACL_TIME], at [L_DCL_TIME]); the
    word written for a time [ms], left or right alike, is
    [int(saturate_ms ms)]: 0 below 0, 32767 above 32767, and the time itself
    (truncated to an int by [int()]) in between, so always within
    [0, 32767].  -5 writes 0, 40000 writes 32767, 100 writes 100. *)
Theorem accel_decel_times_saturate
    (self : Controller) (L_ms R_ms : Q) (b : bus) :
  set_accel_time self L_ms R_ms b
  = (Returned (next_reply b),
     record_call b
       (WriteRegisters L_ACL_TIME
          [py_int (saturate_ms L_ms); py_int (saturate_ms R_ms)] (ID self)))
  /\ set_decel_time self L_ms R_ms b
     = (Returned (next_reply b),
        record_call b
          (WriteRegisters L_DCL_TIME
             [py_int (saturate_ms L_ms); py_int (saturate_ms R_ms)] (ID self)))
  /\ (forall ms : Q, 0 <= py_int (saturate_ms ms) <= 32767)
  /\ (forall ms : Q, (ms < 0)%Q -> py_int (saturate_ms ms) = 0)
  /\ (forall ms : Q, (32767 < ms)%Q -> py_int (saturate_ms ms) = 32767)
  /\ (forall ms : Q, (0 <= ms <= 32767)%Q ->
        py_int (saturate_ms ms) = py_int ms)
  /\ (forall z : Z, 0 <= z <= 32767 ->
        py_int (saturate_ms (inject_Z z)) = z)
  /\ set_accel_time self (-5) 40000 b
     = (Returned (next_reply b),
        record_call b (WriteRegisters 0x2080 [0; 32767] (ID self)))
  /\ set_decel_time self 40000 (-5) b
     = (Returned (next_reply b),
        record_call b (WriteRegisters 0x2082 [32767; 0] (ID self)))
  /\ set_accel_time self 100 100 b
     = (Returned (next_reply b),
        record_call b (WriteRegisters 0x2080 [100; 100] (ID self)))
  /\ set_decel_time self 100 100 b
     = (Returned (next_reply b),
        record_call b (WriteRegisters 0x2082 [100; 100] (ID self))).
Proof.
  split; [reflexivity|]. split; [reflexivity|].
  split; [|split; [|split; [|split; [|split]]]].
  - intros ms.
    destruct (saturate_ms_cases ms) as [[_ ->]|[[_ ->]|[[Hlo Hhi] ->]]].
    + now compute.
    + now compute.
    + now apply py_int_between.
  - intros ms Hms.
    destruct (saturate_ms_cases ms) as [[H _]|[[_ ->]|[[H _] _]]].
    + exfalso. apply (Qlt_irrefl 0).
      apply Qlt_trans with (y := 32767%Q); [reflexivity|].
      now apply Qlt_trans with (y := ms).
    + reflexivity.
    + exfalso. now apply (Qlt_not_le ms 0).
  - intros ms Hms.
    destruct (saturate_ms_cases ms) as [[_ ->]|[[H _]|[[_ H] _]]].
    + reflexivity.
    + exfalso. apply (Qlt_irrefl 0).
      apply Qlt_trans with (y := 32767%Q); [reflexivity|].
      now apply Qlt_trans with (y := ms).
    + exfalso. now apply (Qlt_not_le 32767 ms).
  - intros ms [Hlo Hhi].
    destruct (saturate_ms_cases ms) as [[H _]|[[H _]|[_ ->]]].
    + exfalso. now apply (Qlt_not_le 32767 ms).
    + exfalso. now apply (Qlt_not_le ms 0).
    + reflexivity.
  - intros z Hz.
    destruct (saturate_ms_cases (inject_Z z)) as [[H _]|[[H _]|[_ ->]]].
    + exfalso. unfold Qlt in H. simpl in H. lia.
    + exfalso. unfold Qlt in H. simpl in H. lia.
    + apply py_int_inject_Z.
  - repeat split; reflexivity.
Qed.

Lemma accel_decel_times_saturate_witness :
  (32767 < 40000)%Q /\ py_int (saturate_ms 40000) = 32767.
Proof.
  split; [reflexivity|].
  apply (proj1 (proj2 (proj2 (proj2 (proj2 (accel_decel_times_saturate
           default_controller 0 0 (steady_bus [])))))) 40000%Q).
  reflexivity.
Defined.

(** ** Split words *)

Lemma lo_word_mod (dec : Z) : Z.land dec 0x0000FFFF = dec mod 65536.
Proof. change 0x0000FFFF with (Z.ones 16). now rewrite Z.land_ones by lia. Qed.

Lemma hi_word_mod (dec : Z) :
  Z.shiftr (Z.land dec 0xFFFF0000) 16 = (dec / 65536) mod 65536.
Proof.
  rewrite Z.shiftr_land.
  change (Z.shiftr 0xFFFF0000 16) with (Z.ones 16).
  rewrite Z.land_ones by lia.
  now rewrite Z.shiftr_div_pow2 by lia.
Qed.

Lemma lor_shiftl_16 (h l : Z) :
  0 <= l < 65536 -> Z.lor (Z.shiftl h 16) l = h * 65536 + l.
Proof.
  intros Hl.
  assert (Z.land (Z.shiftl h 16) l = 0) as Hdisjoint.
  { apply Z.bits_inj'. intros n Hn.
    rewrite Z.land_spec, Z.bits_0.
    destruct (Z.lt_ge_cases n 16) as [Hlt|Hge].
    - now rewrite Z.shiftl_spec_low by assumption.
    - rewrite <- (Z.mod_small l (2 ^ 16)) by (change (2 ^ 16) with 65536; lia).
      rewrite Z.mod_pow2_bits_high by lia.
      apply andb_false_r. }
  rewrite <- Z.lxor_lor by assumption.
  rewrite <- Z.add_nocarry_lxor by assumption.
  now rewrite Z.shiftl_mul_pow2 by lia.
Qed.

(** The reassembled pulse count is the signed reading of the 32 bits
    [hi mod 2^16] and [lo mod 2^16]. *)
Lemma pulse_signed_32 (pul_hi pul_lo : Z) :
  pulse pul_hi pul_lo
  = np_int32 ((pul_hi mod 65536) * 65536 + pul_lo mod 65536).
Proof.
  unfold pulse. rewrite (Z.land_comm pul_hi), (Z.land_comm pul_lo).
  rewrite !land_0xFFFF. rewrite lor_shiftl_16; [reflexivity|].
  apply Z.mod_pos_bound. lia.
Qed.

Lemma np_int32_range (w : Z) :
  -2147483648 <= np_int32 w < 2147483648
  /\ (np_int32 w - w) mod 4294967296 = 0.
Proof.
  unfold np_int32. split.
  - pose proof (Z.mod_pos_bound (w + 2147483648) 4294967296). lia.
  - rewrite (Z.mod_eq (w + 2147483648) 4294967296) by lia.
    replace (w + 2147483648
             - 4294967296 * ((w + 2147483648) / 4294967296)
             - 2147483648 - w)
      with (- ((w + 2147483648) / 4294967296) * 4294967296) by lia.
    apply Z.mod_mul. lia.
Qed.

Lemma np_int32_small (w : Z) :
  -2147483648 <= w < 2147483648 -> np_int32 w = w.
Proof. intros H. unfold np_int32. rewrite Z.mod_small; lia. Qed.

(** Splitting a 32-bit signed integer as [deg_to_32bitArray] does and
    reassembling the two words as the position feedback does is the
    identity. *)
Lemma pulse_of_split (dec : Z) :
  -2147483648 <= dec < 2147483648 ->
  pulse (Z.shiftr (Z.land dec 0xFFFF0000) 16) (Z.land dec 0x0000FFFF) = dec.
Proof.
  intros Hdec. rewrite pulse_signed_32, hi_word_mod, lo_word_mod.
  rewrite !Z.mod_mod by lia.
  unfold np_int32.
  replace ((dec / 65536) mod 65536 * 65536 + dec mod 65536)
    with (dec mod 4294967296).
  - destruct (Z.lt_ge_cases dec 0) as [Hneg|Hpos].
    + rewrite <- (Z.mod_add dec 1 4294967296) by lia.
      rewrite (Z.mod_small (dec + 1 * 4294967296)) by lia.
      rewrite <- (Z.mod_add _ (-1) 4294967296) by lia.
      rewrite Z.mod_small; lia.
    + rewrite (Z.mod_small dec) by lia. rewrite Z.mod_small; lia.
  - change 4294967296 with (65536 * 65536).
    rewrite Z.rem_mul_r by lia. lia.
Qed.

(** The degree map is the line through the origin of slope 2048/45. *)
Lemma map_linear (deg : Q) :
  (map deg (-1440) 1440 (-65536) 65536 == deg * (2048 # 45))%Q.
Proof. unfold map. field. Qed.

Lemma map_at_least (deg : Q) (z : Z) (lo : Q) :
  (lo <= deg)%Q ->
  (inject_Z z <= lo * (2048 # 45))%Q ->
  z <= py_int (map deg (-1440) 1440 (-65536) 65536).
Proof.
  intros Hdeg Hz. rewrite <- (py_int_inject_Z z). apply py_int_mono.
  rewrite map_linear. lra.
Qed.

Lemma map_at_most (deg : Q) (z : Z) (hi : Q) :
  (deg <= hi)%Q ->
  (hi * (2048 # 45) <= inject_Z z)%Q ->
  py_int (map deg (-1440) 1440 (-65536) 65536) <= z.
Proof.
  intros Hdeg Hz. rewrite <- (py_int_inject_Z z). apply py_int_mono.
  rewrite map_linear. lra.
Qed.

Lemma get_wheels_tick_steady (self : Controller) (l_hi l_lo r_hi r_lo : Z) :
  get_wheels_tick self 1 (steady_bus [l_hi; l_lo; r_hi; r_lo])
  = (Returned (pulse l_hi l_lo, pulse r_hi r_lo),
     record_call (steady_bus [l_hi; l_lo; r_hi; r_lo])
       (ReadHoldingRegisters L_FB_POS_HI 4 (ID self))).
Proof. reflexivity. Qed.



(** ** Relative angle *)


(** ** Position feedback *)

(** C7.  [get_wheels_travelled] asks for the four registers from
    [L_FB_POS_HI] in one read (repeated whole while the reply has no
    [registers]), takes them as left-high, left-low, right-high,
    right-low, reassembles each axis into a signed 32-bit count and returns
    [count / 16384 * (2 * pi * R_Wheel)] for each, in double precision.
    [get_wheels_tick] returns the two counts themselves.  With the
    registers [0, 1000, 0, 0xFFFF] the counts are 1000 and 65535. *)
Theorem get_wheels_travelled_converts
    (self : Controller) (N : nat) (l_pul_hi l_pul_lo r_pul_hi r_pul_lo : Z)
    (fuel : nat) (b : bus) :
  (forall k, (k < N)%nat -> replies b (length (calls b) + k) = NoRegisters) ->
  replies b (length (calls b) + N)
  = WithRegisters [l_pul_hi; l_pul_lo; r_pul_hi; r_pul_lo] ->
  (N < fuel)%nat ->
  get_wheels_travelled self fuel b
  = (Returned
       ((float_of_Z (pulse l_pul_hi l_pul_lo) / float_of_Z 16384
         * (2 * np_pi * R_Wheel self))%float,
        (float_of_Z (pulse r_pul_hi r_pul_lo) / float_of_Z 16384
         * (2 * np_pi * R_Wheel self))%float),
     {| replies := replies b;
        calls := calls b
                 ++ replicate (S N)
                      (ReadHoldingRegisters 0x20A7 4 (ID self));
        stdout := stdout b ++ replicate N attribute_error_text |})
  /\ get_wheels_tick self fuel b
     = (Returned (pulse l_pul_hi l_pul_lo, pulse r_pul_hi r_pul_lo),
        {| replies := replies b;
           calls := calls b
                    ++ replicate (S N)
                         (ReadHoldingRegisters 0x20A7 4 (ID self));
           stdout := stdout b ++ replicate N attribute_error_text |})
  /\ (forall hi lo : Z,
        -2147483648 <= pulse hi lo < 2147483648
        /\ (pulse hi lo - ((hi mod 65536) * 65536 + lo mod 65536))
           mod 4294967296 = 0)
  /\ (forall hi lo : Z,
        0 <= hi < 32768 -> 0 <= lo < 65536 -> pulse hi lo = hi * 65536 + lo)
  /\ pulse 0 1000 = 1000
  /\ pulse 0 0xFFFF = 65535.
Proof.
  intros Hbad Hgood Hfuel.
  assert (modbus_fail_read_handler self fuel L_FB_POS_HI 4 b
          = (Returned
               [Some l_pul_hi; Some l_pul_lo; Some r_pul_hi; Some r_pul_lo],
             {| replies := replies b;
                calls := calls b
                         ++ replicate (S N)
                              (ReadHoldingRegisters 0x20A7 4 (ID self));
                stdout := stdout b ++ replicate N attribute_error_text |}))
    as Hread.
  { unfold modbus_fail_read_handler.
    rewrite (read_loop_succeeds self L_FB_POS_HI 4
               [l_pul_hi; l_pul_lo; r_pul_hi; r_pul_lo])
      with (N := N) by (assumption || reflexivity || lia).
    now rewrite record_call_after_retries. }
  split; [|split; [|split; [|split; [|split]]]].
  - unfold get_wheels_travelled. open_monad.
    now rewrite Hread.
  - unfold get_wheels_tick. open_monad.
    now rewrite Hread.
  - intros hi lo. rewrite pulse_signed_32. apply np_int32_range.
  - intros hi lo Hhi Hlo. rewrite pulse_signed_32.
    rewrite !Z.mod_small by lia. apply np_int32_small. lia.
  - reflexivity.
  - reflexivity.
Qed.

Lemma get_wheels_travelled_converts_witness :
  get_wheels_travelled default_controller 1
    (steady_bus [0; 1000; 0; 0xFFFF])
  = (Returned
       ((1000 / 16384 * (2 * np_pi * R_Wheel default_controller))%float,
        (65535 / 16384 * (2 * np_pi * R_Wheel default_controller))%float),
     {| replies := replies (steady_bus [0; 1000; 0; 0xFFFF]);
        calls := [ReadHoldingRegisters 0x20A7 4 1];
        stdout := [] |}).
Proof.
  exact (proj1 (get_wheels_travelled_converts default_controller 0
                  0 1000 0 0xFFFF 1 (steady_bus [0; 1000; 0; 0xFFFF])
                  (fun k (H : (k < 0)%nat) =>
                     False_ind _ (Nat.nlt_0_r k H))
                  eq_refl (Nat.lt_0_succ 0))).
Defined.

(** In double precision the grouping matters: the driver multiplies the
    revolutions by the precomputed [2 * pi * R_Wheel]; multiplying by 2, pi
    and the radius in turn rounds differently in the last place. *)
Remark travelled_grouping :
  ((1000 / 16384 * (2 * np_pi * R_Wheel default_controller))
   =? (1000 / 16384 * 2 * np_pi * R_Wheel default_controller))%float
  = false.
Proof. reflexivity. Qed.

(** ** Speed feedback *)

Lemma np_int16_signed (w : Z) :
  (0 <= w < 32768 -> np_int16 w = w)
  /\ (32768 <= w < 65536 -> np_int16 w = w - 65536).
Proof.
  unfold np_int16. split; intros H.
  - rewrite Z.mod_small; lia.
  - rewrite <- (Z.mod_add _ (-1) 65536) by lia. rewrite Z.mod_small; lia.
Qed.

(** C9.  [get_rpm] decodes each feedback word as a signed 16-bit value
    divided by 10.0, and [get_linear_velocities] returns
    [rpm_to_linear] of the left rpm and [rpm_to_linear] of the negated
    right rpm. *)
Theorem get_linear_velocities_negates_right
    (self : Controller) (N : nat) (fb_L fb_R : Z) (fuel : nat) (b : bus) :
  (forall k, (k < N)%nat -> replies b (length (calls b) + k) = NoRegisters) ->
  replies b (length (calls b) + N) = WithRegisters [fb_L; fb_R] ->
  (N < fuel)%nat ->
  get_rpm self fuel b
  = (Returned ((float_of_Z (np_int16 fb_L) / 10)%float,
               (float_of_Z (np_int16 fb_R) / 10)%float),
     {| replies := replies b;
        calls := calls b
                 ++ replicate (S N)
                      (ReadHoldingRegisters L_FB_RPM 2 (ID self));
        stdout := stdout b ++ replicate N attribute_error_text |})
  /\ get_linear_velocities self fuel b
     = (Returned
          (rpm_to_linear self (float_of_Z (np_int16 fb_L) / 10)%float,
           rpm_to_linear self (- (float_of_Z (np_int16 fb_R) / 10))%float),
        {| replies := replies b;
           calls := calls b
                    ++ replicate (S N)
                         (ReadHoldingRegisters L_FB_RPM 2 (ID self));
           stdout := stdout b ++ replicate N attribute_error_text |})
  /\ (forall rpm : float,
        rpm_to_linear self rpm
        = (rpm * 2 * np_pi / 60 * R_Wheel self)%float)
  /\ (forall w : Z,
        (0 <= w < 32768 -> np_int16 w = w)
        /\ (32768 <= w < 65536 -> np_int16 w = w - 65536)).
Proof.
  intros Hbad Hgood Hfuel.
  assert (modbus_fail_read_handler self fuel L_FB_RPM 2 b
          = (Returned [Some fb_L; Some fb_R],
             {| replies := replies b;
                calls := calls b
                         ++ replicate (S N)
                              (ReadHoldingRegisters L_FB_RPM 2 (ID self));
                stdout := stdout b ++ replicate N attribute_error_text |}))
    as Hread.
  { unfold modbus_fail_read_handler.
    rewrite (read_loop_succeeds self L_FB_RPM 2 [fb_L; fb_R])
      with (N := N) by (assumption || reflexivity || lia).
    now rewrite record_call_after_retries. }
  assert (get_rpm self fuel b
          = (Returned ((float_of_Z (np_int16 fb_L) / 10)%float,
                       (float_of_Z (np_int16 fb_R) / 10)%float),
             {| replies := replies b;
                calls := calls b
                         ++ replicate (S N)
                              (ReadHoldingRegisters L_FB_RPM 2 (ID self));
                stdout := stdout b ++ replicate N attribute_error_text |}))
    as Hrpm.
  { unfold get_rpm. open_monad. now rewrite Hread. }
  split; [exact Hrpm|]. split; [|split].
  - unfold get_linear_velocities. open_monad. now rewrite Hrpm.
  - reflexivity.
  - apply np_int16_signed.
Qed.

Lemma get_linear_velocities_negates_right_witness :
  get_linear_velocities default_controller 3 (glitching_bus 2 [100; 65436])
  = (Returned (rpm_to_linear default_controller 10,
               rpm_to_linear default_controller (- (-10))),
     {| replies := replies (glitching_bus 2 [100; 65436]);
        calls := replicate 3 (ReadHoldingRegisters 0x20AB 2 1);
        stdout := replicate 2 attribute_error_text |}).
Proof.
  refine (proj1 (proj2 (get_linear_velocities_negates_right
                          default_controller 2 100 65436 3
                          (glitching_bus 2 [100; 65436]) _ eq_refl _))).
  - intros [|[|k]] Hk; [reflexivity | reflexivity | lia].
  - lia.
Defined.

(** * Further properties of the driver *)

(** ** The retry loop, in general *)

Section RetryLoop.

Context (self : Controller) (ADDR : Z) (WORD : nat).

Let rq : request := ReadHoldingRegisters ADDR WORD (ID self).

(** The copy takes the first [n] registers from index [i] on, when the
    reply has that many. *)
Lemma copy_registers_prefix (words : list Z) :
  forall (n i : nat) (reg : list (option Z)),
    (i + n <= length words)%nat ->
    length reg = (i + n)%nat ->
    take i reg = Some <$> take i words ->
    copy_registers (WithRegisters words) (seq i n) reg
    = (None, Some <$> take (i + n) words).
Proof.
  induction n as [|n IH]; intros i reg Hin Hlen Htake; simpl.
  - rewrite Nat.add_0_r in *. rewrite <- Htake.
    now rewrite take_ge by lia.
  - destruct (lookup_lt_is_Some_2 words i) as [w Hw]; [lia|].
    rewrite Hw. replace (i + S n)%nat with (S i + n)%nat by lia.
    apply IH.
    + lia.
    + rewrite length_insert. lia.
    + rewrite (take_S_r words i w Hw), fmap_app, <- Htake. simpl.
      erewrite take_S_r.
      * now rewrite take_insert_ge by lia.
      * apply list_lookup_insert_eq. lia.
Qed.

Lemma after_retries_0 (b : bus) (q : request) : after_retries b q 0 = b.
Proof.
  destruct b. unfold after_retries. simpl. now rewrite !app_nil_r.
Qed.

Lemma after_retries_S (b : bus) (q : request) (n : nat) :
  after_retries (record_print (record_call b q) attribute_error_text) q n
  = after_retries b q (S n).
Proof.
  unfold after_retries, record_print, record_call. simpl.
  now rewrite <- !app_assoc.
Qed.

(** [N] replies without [registers] cost [N] units of fuel, [N] reads and
    [N] printed lines, and leave the buffer as it was. *)
Lemma read_loop_skip (reg : list (option Z)) :
  (0 < WORD)%nat ->
  forall (N fuel : nat) (b : bus),
    (forall k, (k < N)%nat ->
               replies b (length (calls b) + k) = NoRegisters) ->
    read_loop self (N + fuel) ADDR WORD reg b
    = read_loop self fuel ADDR WORD reg (after_retries b rq N).
Proof.
  intros HW. induction N as [|N IH]; intros fuel b Hbad.
  - now rewrite after_retries_0.
  - change (S N + fuel)%nat with (S (N + fuel)).
    rewrite read_loop_retry.
    + rewrite IH; [now rewrite after_retries_S|].
      intros k Hk. simpl. rewrite length_app. simpl.
      replace (length (calls b) + 1 + k)%nat
        with (length (calls b) + S k)%nat by lia.
      apply Hbad. lia.
    + assumption.
    + unfold next_reply. rewrite <- (Nat.add_0_r (length (calls b))).
      apply Hbad. lia.
Qed.

Lemma next_reply_after_retries (b : bus) (N : nat) :
  next_reply (after_retries b rq N) = replies b (length (calls b) + N).
Proof.
  unfold next_reply, after_retries. simpl.
  now rewrite length_app, length_replicate.
Qed.

(** Whatever the replies and however the loop ends, it has only issued
    reads of the same registers, at most one per unit of fuel, and printed
    one line for each failed read. *)
Lemma read_loop_log :
  forall (fuel : nat) (reg : list (option Z)) (b : bus),
  exists n k : nat,
    (n <= fuel)%nat /\ (k <= n)%nat /\ (n <= S k)%nat
    /\ snd (read_loop self fuel ADDR WORD reg b)
       = {| replies := replies b;
            calls := calls b ++ replicate n rq;
            stdout := stdout b ++ replicate k attribute_error_text |}.
Proof.
  induction fuel as [|fuel IH]; intros reg b.
  - exists 0%nat, 0%nat. repeat split; try lia. simpl.
    destruct b. simpl. now rewrite !app_nil_r.
  - simpl. open_monad.
    destruct (copy_registers (next_reply b) (seq 0 WORD) reg)
      as [[e|] reg'];
      [destruct e|];
      try (exists 1%nat, 0%nat; repeat split; try lia; simpl;
           now rewrite app_nil_r).
    destruct (IH reg' (record_print (record_call b rq) attribute_error_text))
      as [n [k [Hn [Hk [Hnk Heq]]]]].
    exists (S n), (S k). repeat split; try lia.
    unfold print. fold rq. simpl. rewrite Heq. simpl.
    now rewrite <- !app_assoc.
Qed.

End RetryLoop.

(** After [N] replies without [registers], the first [WORD] words of a
    reply that has at least [WORD] of them are returned. *)
Lemma read_handler_prefix
    (self : Controller) (ADDR : Z) (WORD N : nat) (words : list Z)
    (fuel : nat) (b : bus) :
  (0 < WORD)%nat ->
  (forall k, (k < N)%nat -> replies b (length (calls b) + k) = NoRegisters) ->
  replies b (length (calls b) + N) = WithRegisters words ->
  (WORD <= length words)%nat ->
  (N < fuel)%nat ->
  modbus_fail_read_handler self fuel ADDR WORD b
  = (Returned (Some <$> take WORD words),
     {| replies := replies b;
        calls := calls b
                 ++ replicate (S N) (ReadHoldingRegisters ADDR WORD (ID self));
        stdout := stdout b ++ replicate N attribute_error_text |}).
Proof.
  intros HW Hbad Hgood Hlen Hfuel. unfold modbus_fail_read_handler.
  replace fuel with (N + S (fuel - S N))%nat by lia.
  rewrite read_loop_skip by assumption.
  simpl. open_monad. rewrite next_reply_after_retries, Hgood.
  rewrite (copy_registers_prefix words WORD 0).
  - now rewrite record_call_after_retries.
  - lia.
  - now rewrite length_replicate.
  - reflexivity.
Qed.

(** X1.  A reply with more registers than asked for is accepted: after [N]
    replies without [registers], the handler returns the first [WORD] words
    of the first reply that has at least [WORD] of them, and drops the
    rest; it has then issued [N + 1] reads. *)
Theorem modbus_fail_read_handler_takes_prefix
    (self : Controller) (ADDR : Z) (WORD N : nat) (words : list Z)
    (fuel : nat) (b : bus) :
  (0 < WORD)%nat ->
  (forall k, (k < N)%nat -> replies b (length (calls b) + k) = NoRegisters) ->
  replies b (length (calls b) + N) = WithRegisters words ->
  (WORD <= length words)%nat ->
  (N < fuel)%nat ->
  modbus_fail_read_handler self fuel ADDR WORD b
  = (Returned (Some <$> take WORD words),
     {| replies := replies b;
        calls := calls b
                 ++ replicate (S N) (ReadHoldingRegisters ADDR WORD (ID self));
        stdout := stdout b ++ replicate N attribute_error_text |}).
Proof. apply read_handler_prefix. Qed.

Lemma modbus_fail_read_handler_takes_prefix_witness :
  modbus_fail_read_handler default_controller 2 OPR_MODE 1
    (glitching_bus 1 [3; 7; 9])
  = (Returned [Some 3],
     {| replies := replies (glitching_bus 1 [3; 7; 9]);
        calls := replicate 2 (ReadHoldingRegisters OPR_MODE 1 1);
        stdout := [attribute_error_text] |}).
Proof.
  apply (modbus_fail_read_handler_takes_prefix default_controller OPR_MODE
           1 1 [3; 7; 9] 2 (glitching_bus 1 [3; 7; 9])).
  - lia.
  - intros [|k] Hk; [reflexivity | lia].
  - reflexivity.
  - simpl. lia.
  - lia.
Defined.

(** X2.  A reply that has [registers] but fewer than asked for ends the
    retries: the [IndexError] of the copy is not caught, so after [N]
    replies without [registers] (each retried) the handler raises it on the
    first short reply, having issued [N + 1] reads. *)
Theorem modbus_fail_read_handler_raises_on_short_reply
    (self : Controller) (ADDR : Z) (WORD N : nat) (words : list Z)
    (fuel : nat) (b : bus) :
  (forall k, (k < N)%nat -> replies b (length (calls b) + k) = NoRegisters) ->
  replies b (length (calls b) + N) = WithRegisters words ->
  (length words < WORD)%nat ->
  (N < fuel)%nat ->
  modbus_fail_read_handler self fuel ADDR WORD b
  = (Raised IndexError,
     {| replies := replies b;
        calls := calls b
                 ++ replicate (S N) (ReadHoldingRegisters ADDR WORD (ID self));
        stdout := stdout b ++ replicate N attribute_error_text |}).
Proof.
  intros Hbad Hgood Hlen Hfuel. unfold modbus_fail_read_handler.
  replace fuel with (N + S (fuel - S N))%nat by lia.
  rewrite read_loop_skip by (assumption || lia).
  simpl. open_monad. rewrite next_reply_after_retries, Hgood.
  destruct (copy_registers_short words WORD 0 (replicate WORD None))
    as [reg' ->]; [lia | lia |].
  now rewrite record_call_after_retries.
Qed.

Lemma modbus_fail_read_handler_raises_on_short_reply_witness :
  modbus_fail_read_handler default_controller 5 L_FB_POS_HI 4
    (glitching_bus 1 [0; 1000])
  = (Raised IndexError,
     {| replies := replies (glitching_bus 1 [0; 1000]);
        calls := replicate 2 (ReadHoldingRegisters L_FB_POS_HI 4 1);
        stdout := [attribute_error_text] |}).
Proof.
  apply (modbus_fail_read_handler_raises_on_short_reply default_controller
           L_FB_POS_HI 4 1 [0; 1000] 5 (glitching_bus 1 [0; 1000])).
  - intros [|k] Hk; [reflexivity | lia].
  - reflexivity.
  - simpl. lia.
  - lia.
Defined.

(** X3.  The handler has no retry limit: while the client hands back no
    [registers], every unit of fuel is spent on one more read and one more
    printed line, and the handler has not returned. *)
Theorem modbus_fail_read_handler_never_gives_up
    (self : Controller) (ADDR : Z) (WORD : nat) (fuel : nat) (b : bus) :
  (0 < WORD)%nat ->
  (forall k, (k < fuel)%nat ->
             replies b (length (calls b) + k) = NoRegisters) ->
  modbus_fail_read_handler self fuel ADDR WORD b
  = (Spinning,
     {| replies := replies b;
        calls := calls b
                 ++ replicate fuel (ReadHoldingRegisters ADDR WORD (ID self));
        stdout := stdout b ++ replicate fuel attribute_error_text |}).
Proof.
  intros HW Hbad. unfold modbus_fail_read_handler.
  rewrite <- (Nat.add_0_r fuel) at 1.
  now rewrite read_loop_skip by assumption.
Qed.

Lemma modbus_fail_read_handler_never_gives_up_witness :
  modbus_fail_read_handler default_controller 50 L_FB_RPM 2 dead_bus
  = (Spinning,
     {| replies := replies dead_bus;
        calls := replicate 50 (ReadHoldingRegisters L_FB_RPM 2 1);
        stdout := replicate 50 attribute_error_text |}).
Proof.
  apply (modbus_fail_read_handler_never_gives_up default_controller
           L_FB_RPM 2 50 dead_bus).
  - lia.
  - intros k Hk. reflexivity.
Defined.

(** ** What the feedback methods do to the bus *)

(** Takes apart the buffer and its entries wherever the goal looks at
    them. *)
Ltac split_matches :=
  repeat match goal with
         | |- context [match ?x with _ => _ end] =>
             is_var x; destruct x; simpl
         | |- context [?l !! _] => is_var l; destruct l; simpl
         end.

Lemma modbus_fail_read_handler_log
    (self : Controller) (fuel : nat) (ADDR : Z) (WORD : nat) (b : bus) :
  exists n : nat,
    (n <= fuel)%nat
    /\ calls (snd (modbus_fail_read_handler self fuel ADDR WORD b))
       = calls b ++ replicate n (ReadHoldingRegisters ADDR WORD (ID self)).
Proof.
  destruct (read_loop_log self ADDR WORD fuel (replicate WORD None) b)
    as [n [k [Hn [_ [_ Heq]]]]].
  exists n. split; [assumption|].
  unfold modbus_fail_read_handler. now rewrite Heq.
Qed.

Lemma get_mode_bus (self : Controller) (fuel : nat) (b : bus) :
  snd (get_mode self fuel b)
  = snd (modbus_fail_read_handler self fuel OPR_MODE 1 b).
Proof.
  unfold get_mode. open_monad. unfold index, ret, raise.
  destruct (modbus_fail_read_handler self fuel OPR_MODE 1 b) as [[regs|e|] b'];
    simpl; split_matches; reflexivity.
Qed.

Lemma get_rpm_bus (self : Controller) (fuel : nat) (b : bus) :
  snd (get_rpm self fuel b)
  = snd (modbus_fail_read_handler self fuel L_FB_RPM 2 b).
Proof.
  unfold get_rpm. open_monad. unfold index, as_int, ret, raise.
  destruct (modbus_fail_read_handler self fuel L_FB_RPM 2 b) as [[regs|e|] b'];
    simpl; split_matches; reflexivity.
Qed.

Lemma get_linear_velocities_bus (self : Controller) (fuel : nat) (b : bus) :
  snd (get_linear_velocities self fuel b) = snd (get_rpm self fuel b).
Proof.
  unfold get_linear_velocities. open_monad.
  destruct (get_rpm self fuel b) as [[[rpmL rpmR]|e|] b']; reflexivity.
Qed.

Lemma get_wheels_tick_bus (self : Controller) (fuel : nat) (b : bus) :
  snd (get_wheels_tick self fuel b)
  = snd (modbus_fail_read_handler self fuel L_FB_POS_HI 4 b).
Proof.
  unfold get_wheels_tick. open_monad. unfold index, as_int, ret, raise.
  destruct (modbus_fail_read_handler self fuel L_FB_POS_HI 4 b)
    as [[regs|e|] b']; simpl; split_matches; reflexivity.
Qed.

Lemma get_wheels_travelled_bus (self : Controller) (fuel : nat) (b : bus) :
  snd (get_wheels_travelled self fuel b)
  = snd (modbus_fail_read_handler self fuel L_FB_POS_HI 4 b).
Proof.
  unfold get_wheels_travelled. open_monad. unfold index, as_int, ret, raise.
  destruct (modbus_fail_read_handler self fuel L_FB_POS_HI 4 b)
    as [[regs|e|] b']; simpl; split_matches; reflexivity.
Qed.

(** X4.  The two position readers are the same read: for every bus and
    fuel, [get_wheels_travelled] ends as [get_wheels_tick] does (same bus,
    same exception, or both still retrying), and where [get_wheels_tick]
    returns the counts [(l, r)], [get_wheels_travelled] returns
    [count / 16384 * (2 * pi * R_Wheel)] of each. *)
Theorem get_wheels_travelled_of_tick
    (self : Controller) (fuel : nat) (b : bus) :
  get_wheels_travelled self fuel b
  = match get_wheels_tick self fuel b with
    | (Returned (l_tick, r_tick), b') =>
        (Returned
           ((float_of_Z l_tick / float_of_Z 16384
             * (2 * np_pi * R_Wheel self))%float,
            (float_of_Z r_tick / float_of_Z 16384
             * (2 * np_pi * R_Wheel self))%float),
         b')
    | (Raised e, b') => (Raised e, b')
    | (Spinning, b') => (Spinning, b')
    end.
Proof.
  unfold get_wheels_travelled, get_wheels_tick. open_monad.
  unfold index, as_int, ret, raise.
  destruct (modbus_fail_read_handler self fuel L_FB_POS_HI 4 b)
    as [[regs|e|] b']; simpl; split_matches; reflexivity.
Qed.

(** X5.  Feedback methods only ever read, and only their own registers:
    whatever the client answers and however the call ends, [get_mode],
    [get_rpm], [get_linear_velocities], [get_wheels_travelled] and
    [get_wheels_tick] have added to the bus nothing but reads of the one
    register block they ask for (at most one per unit of fuel), and
    [get_fault_code] exactly one read of the two fault registers. *)
Theorem feedback_only_reads (self : Controller) (fuel : nat) (b : bus) :
  (exists n, (n <= fuel)%nat
     /\ calls (snd (get_mode self fuel b))
        = calls b ++ replicate n (ReadHoldingRegisters 0x200D 1 (ID self)))
  /\ (exists n, (n <= fuel)%nat
        /\ calls (snd (get_rpm self fuel b))
           = calls b ++ replicate n (ReadHoldingRegisters 0x20AB 2 (ID self)))
  /\ (exists n, (n <= fuel)%nat
        /\ calls (snd (get_linear_velocities self fuel b))
           = calls b ++ replicate n (ReadHoldingRegisters 0x20AB 2 (ID self)))
  /\ (exists n, (n <= fuel)%nat
        /\ calls (snd (get_wheels_travelled self fuel b))
           = calls b ++ replicate n (ReadHoldingRegisters 0x20A7 4 (ID self)))
  /\ (exists n, (n <= fuel)%nat
        /\ calls (snd (get_wheels_tick self fuel b))
           = calls b ++ replicate n (ReadHoldingRegisters 0x20A7 4 (ID self)))
  /\ calls (snd (get_fault_code self b))
     = calls b ++ [ReadHoldingRegisters 0x20A5 2 (ID self)].
Proof.
  split; [|split; [|split; [|split; [|split]]]].
  - rewrite get_mode_bus. apply modbus_fail_read_handler_log.
  - rewrite get_rpm_bus. apply modbus_fail_read_handler_log.
  - rewrite get_linear_velocities_bus, get_rpm_bus.
    apply modbus_fail_read_handler_log.
  - rewrite get_wheels_travelled_bus. apply modbus_fail_read_handler_log.
  - rewrite get_wheels_tick_bus. apply modbus_fail_read_handler_log.
  - now rewrite get_fault_code_one_read.
Qed.

(** ** Mode and fault queries at the edges *)

(** X6.  [get_mode] hands back the first register of the first reply that
    has any, as it is: the value is not checked against the modes 1, 2, 3
    that [set_mode] accepts, and further registers are ignored. *)
Theorem get_mode_returns_raw_register
    (self : Controller) (N : nat) (mode : Z) (rest : list Z)
    (fuel : nat) (b : bus) :
  (forall k, (k < N)%nat -> replies b (length (calls b) + k) = NoRegisters) ->
  replies b (length (calls b) + N) = WithRegisters (mode :: rest) ->
  (N < fuel)%nat ->
  get_mode self fuel b
  = (Returned (Some mode),
     {| replies := replies b;
        calls := calls b
                 ++ replicate (S N) (ReadHoldingRegisters 0x200D 1 (ID self));
        stdout := stdout b ++ replicate N attribute_error_text |}).
Proof.
  intros Hbad Hgood Hfuel. unfold get_mode. open_monad.
  rewrite (read_handler_prefix self OPR_MODE 1 N (mode :: rest) fuel b)
    by (assumption || simpl; lia).
  reflexivity.
Qed.

Lemma get_mode_returns_raw_register_witness :
  get_mode default_controller 2 (glitching_bus 1 [7])
  = (Returned (Some 7),
     {| replies := replies (glitching_bus 1 [7]);
        calls := replicate 2 (ReadHoldingRegisters 0x200D 1 1);
        stdout := [attribute_error_text] |}).
Proof.
  apply (get_mode_returns_raw_register default_controller 1 7 [] 2
           (glitching_bus 1 [7])).
  - intros [|k] Hk; [reflexivity | lia].
  - reflexivity.
  - lia.
Defined.

(** X7.  [get_fault_code] needs both fault words: on a reply with fewer
    than two registers it raises [IndexError] after its single read and
    reports no flag at all. *)
Theorem get_fault_code_short_reply
    (self : Controller) (b : bus) (registers : list Z) :
  next_reply b = WithRegisters registers ->
  (length registers < 2)%nat ->
  get_fault_code self b
  = (Raised IndexError,
     record_call b (ReadHoldingRegisters 0x20A5 2 (ID self))).
Proof.
  intros Hr Hlen. unfold get_fault_code. open_monad. rewrite Hr.
  destruct registers as [|L [|R rest]]; [reflexivity | reflexivity |].
  simpl in Hlen. lia.
Qed.

Lemma get_fault_code_short_reply_witness :
  get_fault_code default_controller (steady_bus [0x0001])
  = (Raised IndexError,
     record_call (steady_bus [0x0001]) (ReadHoldingRegisters 0x20A5 2 1)).
Proof.
  apply (get_fault_code_short_reply default_controller
           (steady_bus [0x0001]) [0x0001]).
  - reflexivity.
  - simpl. lia.
Defined.

Lemma get_fault_code_on_reply
    (self : Controller) (b : bus) (L_fault_code R_fault_code : Z)
    (rest : list Z) :
  next_reply b = WithRegisters (L_fault_code :: R_fault_code :: rest) ->
  get_fault_code self b
  = (Returned ((py_in L_fault_code FAULT_LIST, L_fault_code),
               (py_in R_fault_code FAULT_LIST, R_fault_code)),
     record_call b (ReadHoldingRegisters L_FAULT 2 (ID self))).
Proof.
  intros Hr. unfold get_fault_code. open_monad. now rewrite Hr.
Qed.

Lemma two_faults_not_listed (f g : Z) :
  In f FAULT_LIST -> In g FAULT_LIST -> f <> g ->
  py_in (Z.lor f g) FAULT_LIST = false.
Proof.
  unfold FAULT_LIST. simpl. intros Hf Hg Hne.
  repeat (destruct Hf as [<-|Hf]; [|]); try contradiction;
    repeat (destruct Hg as [<-|Hg]; [|]); try contradiction;
    (reflexivity || now contradiction Hne).
Qed.

(** X8.  Two faults at once are reported as no fault: when a fault word
    carries the bits of two different codes of [FAULT_LIST], its flag is
    [False] (the word itself is still returned), since the flag is list
    membership and not a test for a nonzero word. *)
Theorem get_fault_code_misses_combined_faults
    (self : Controller) (b : bus) (f g R_fault_code : Z) (rest : list Z) :
  In f FAULT_LIST -> In g FAULT_LIST -> f <> g ->
  next_reply b = WithRegisters (Z.lor f g :: R_fault_code :: rest) ->
  Z.lor f g <> 0
  /\ get_fault_code self b
     = (Returned ((false, Z.lor f g),
                  (py_in R_fault_code FAULT_LIST, R_fault_code)),
        record_call b (ReadHoldingRegisters 0x20A5 2 (ID self))).
Proof.
  intros Hf Hg Hne Hr. split.
  - intros H0. apply Z.lor_eq_0_iff in H0. destruct H0 as [-> _].
    unfold FAULT_LIST in Hf. simpl in Hf.
    repeat (destruct Hf as [Hf|Hf]; [discriminate|]). exact Hf.
  - rewrite (get_fault_code_on_reply self b _ _ _ Hr).
    now rewrite (two_faults_not_listed f g Hf Hg Hne).
Qed.

Lemma get_fault_code_misses_combined_faults_witness :
  get_fault_code default_controller (steady_bus [0x0005; 0x0000])
  = (Returned ((false, 0x0005), (false, 0x0000)),
     record_call (steady_bus [0x0005; 0x0000])
       (ReadHoldingRegisters 0x20A5 2 1)).
Proof.
  refine (proj2 (get_fault_code_misses_combined_faults default_controller
                   (steady_bus [0x0005; 0x0000]) OVER_VOLT OVER_CURR 0 []
                   _ _ _ eq_refl)).
  - simpl. tauto.
  - simpl. tauto.
  - discriminate.
Defined.

(** ** Position-mode speed ceiling *)

Lemma np_clip_word_range (a : Q) (lo hi : Z) :
  lo <= hi ->
  lo <= py_int (np_clip a (inject_Z lo) (inject_Z hi)) <= hi.
Proof.
  intros Hb.
  destruct (np_clip_range a (inject_Z lo) (inject_Z hi)) as [Hlo Hhi].
  - unfold Qle. simpl. lia.
  - now apply py_int_between.
Qed.

(** X9.  [set_maxRPM_pos] issues one [write_registers] of two words at
    [L_MAX_RPM_POS]; each is the value clipped to [1, 1000] and truncated,
    so it is never 0 and never above 1000: a value below 1 (also a negative
    one) is written as 1, one above 1000 as 1000, an integer in between as
    it is. *)
Theorem set_maxRPM_pos_clips
    (self : Controller) (max_L_rpm max_R_rpm : Q) (b : bus) :
  set_maxRPM_pos self max_L_rpm max_R_rpm b
  = (Returned (next_reply b),
     record_call b
       (WriteRegisters 0x208E
          [py_int (np_clip max_L_rpm 1 1000);
           py_int (np_clip max_R_rpm 1 1000)] (ID self)))
  /\ (forall rpm : Q, 1 <= py_int (np_clip rpm 1 1000) <= 1000)
  /\ (forall rpm : Q, (rpm < 1)%Q -> py_int (np_clip rpm 1 1000) = 1)
  /\ (forall rpm : Q, (1000 < rpm)%Q -> py_int (np_clip rpm 1 1000) = 1000)
  /\ (forall rpm : Q, (1 <= rpm <= 1000)%Q ->
        py_int (np_clip rpm 1 1000) = py_int rpm)
  /\ (forall z : Z, 1 <= z <= 1000 ->
        py_int (np_clip (inject_Z z) 1 1000) = z).
Proof.
  split; [reflexivity|]. split; [|split; [|split; [|split]]].
  - intros rpm. apply (np_clip_word_range rpm 1 1000). lia.
  - intros rpm Hrpm.
    rewrite (py_int_Qeq _ 1%Q); [reflexivity|].
    apply np_clip_below; [discriminate | assumption].
  - intros rpm Hrpm.
    rewrite (py_int_Qeq _ 1000%Q); [reflexivity|].
    apply np_clip_above; [discriminate | assumption].
  - intros rpm [Hlo Hhi]. apply py_int_Qeq. now apply np_clip_inside.
  - intros z Hz. rewrite <- (py_int_inject_Z z) at 2.
    apply py_int_Qeq. apply np_clip_inside; unfold Qle; simpl; lia.
Qed.

Lemma set_maxRPM_pos_clips_witness :
  (-20 < 1)%Q /\ py_int (np_clip (-20) 1 1000) = 1.
Proof.
  split; [reflexivity|].
  apply (proj1 (proj2 (proj2 (set_maxRPM_pos_clips default_controller 0 0
                                (steady_bus [])))) (-20)%Q).
  reflexivity.
Defined.

(** ** Every written value is a register word *)

Lemma is_word_mod (z : Z) : is_word (z mod 65536).
Proof. unfold is_word. apply Z.mod_pos_bound. lia. Qed.

Lemma is_word_to_int16 (val : Q) : is_word (to_int16 val).
Proof. unfold to_int16. rewrite land_0xFFFF. apply is_word_mod. Qed.

Lemma is_word_saturate_ms (ms : Q) : is_word (py_int (saturate_ms ms)).
Proof.
  unfold is_word.
  destruct (saturate_ms_cases ms) as [[_ ->]|[[_ ->]|[[Hlo Hhi] ->]]].
  - now compute.
  - now compute.
  - pose proof (py_int_between ms 0 32767 Hlo Hhi). lia.
Qed.

Lemma is_word_max_rpm (rpm : Q) : is_word (py_int (np_clip rpm 1 1000)).
Proof.
  assert (1 <= py_int (np_clip rpm 1 1000) <= 1000) as H
    by (apply (np_clip_word_range rpm 1 1000); lia).
  unfold is_word. lia.
Qed.

Lemma words_ok_deg_to_32bitArray (ang_L ang_R : Q) :
  Forall is_word (deg_to_32bitArray ang_L ++ deg_to_32bitArray ang_R).
Proof.
  unfold deg_to_32bitArray. simpl.
  rewrite !hi_word_mod, !lo_word_mod.
  repeat (apply List.Forall_cons); try apply List.Forall_nil;
    apply is_word_mod.
Qed.

(** Splits a goal on the values of a request into one goal per value. *)
Ltac each_word :=
  unfold words_ok, written_values;
  repeat (apply List.Forall_cons); try apply List.Forall_nil.

Lemma words_ok_after_call (b : bus) (rq : request) :
  Forall words_ok (calls b) -> words_ok rq ->
  Forall words_ok (calls (record_call b rq)).
Proof.
  intros Hb Hrq. simpl. apply Forall_app. split; [assumption|].
  apply List.Forall_cons; [assumption | apply List.Forall_nil].
Qed.

Lemma words_ok_after_reads (b : bus) (n : nat) (ADDR : Z) (WORD : nat)
    (slave : Z) (l : list request) :
  Forall words_ok (calls b) ->
  l = calls b ++ replicate n (ReadHoldingRegisters ADDR WORD slave) ->
  Forall words_ok l.
Proof.
  intros Hb ->. apply Forall_app. split; [assumption|].
  apply Forall_replicate. apply List.Forall_nil.
Qed.

(** X10.  The driver never asks the client to write anything but unsigned
    16-bit words.  If every call logged so far carries only values in
    [0, 65535], so does every call after any method of the driver, for any
    argument: mode, control words, times, rpm, speed ceiling and angle are
    all written as register words, and the feedback methods write
    nothing. *)
Theorem driver_writes_only_words (self : Controller) (b : bus) :
  Forall words_ok (calls b) ->
  (forall MODE, Forall words_ok (calls (snd (set_mode self MODE b))))
  /\ Forall words_ok (calls (snd (enable_motor self b)))
  /\ Forall words_ok (calls (snd (disable_motor self b)))
  /\ Forall words_ok (calls (snd (clear_alarm self b)))
  /\ (forall L_ms R_ms,
        Forall words_ok (calls (snd (set_accel_time self L_ms R_ms b))))
  /\ (forall L_ms R_ms,
        Forall words_ok (calls (snd (set_decel_time self L_ms R_ms b))))
  /\ (forall L_rpm R_rpm,
        Forall words_ok (calls (snd (set_rpm self L_rpm R_rpm b))))
  /\ (forall max_L_rpm max_R_rpm,
        Forall words_ok
          (calls (snd (set_maxRPM_pos self max_L_rpm max_R_rpm b))))
  /\ Forall words_ok (calls (snd (set_position_async_control self b)))
  /\ Forall words_ok (calls (snd (move_left_wheel self b)))
  /\ Forall words_ok (calls (snd (move_right_wheel self b)))
  /\ (forall ang_L ang_R,
        Forall words_ok (calls (snd (set_relative_angle self ang_L ang_R b))))
  /\ (forall fuel, Forall words_ok (calls (snd (get_mode self fuel b))))
  /\ Forall words_ok (calls (snd (get_fault_code self b)))
  /\ (forall fuel, Forall words_ok (calls (snd (get_rpm self fuel b))))
  /\ (forall fuel,
        Forall words_ok (calls (snd (get_linear_velocities self fuel b))))
  /\ (forall fuel,
        Forall words_ok (calls (snd (get_wheels_travelled self fuel b))))
  /\ (forall fuel,
        Forall words_ok (calls (snd (get_wheels_tick self fuel b)))).
Proof.
  intros Hb.
  assert (forall v, is_word v -> words_ok (WriteRegister CONTROL_REG v (ID self)))
    as Hctl by (intros v Hv; each_word; exact Hv).
  repeat match goal with |- _ /\ _ => split end.
  - intros MODE. unfold set_mode.
    destruct (Z.eqb_spec MODE 1) as [->|_];
      [|destruct (Z.eqb_spec MODE 2) as [->|_];
        [|destruct (Z.eqb_spec MODE 3) as [->|_]]];
      try (apply (words_ok_after_call (record_print b _));
           [exact Hb | each_word; unfold is_word; lia]).
    exact Hb.
  - apply words_ok_after_call; [exact Hb | apply Hctl; now compute].
  - apply words_ok_after_call; [exact Hb | apply Hctl; now compute].
  - apply words_ok_after_call; [exact Hb | apply Hctl; now compute].
  - intros L_ms R_ms. apply words_ok_after_call; [exact Hb|].
    each_word; apply is_word_saturate_ms.
  - intros L_ms R_ms. apply words_ok_after_call; [exact Hb|].
    each_word; apply is_word_saturate_ms.
  - intros L_rpm R_rpm. apply words_ok_after_call; [exact Hb|].
    each_word; apply is_word_to_int16.
  - intros L R. apply words_ok_after_call; [exact Hb|].
    each_word; apply is_word_max_rpm.
  - apply words_ok_after_call; [exact Hb|]. each_word; now compute.
  - apply words_ok_after_call; [exact Hb | apply Hctl; now compute].
  - apply words_ok_after_call; [exact Hb | apply Hctl; now compute].
  - intros ang_L ang_R. apply words_ok_after_call; [exact Hb|].
    apply words_ok_deg_to_32bitArray.
  - intros fuel.
    destruct (modbus_fail_read_handler_log self fuel OPR_MODE 1 b)
      as [n [_ Hn]].
    rewrite get_mode_bus. eapply words_ok_after_reads; eassumption.
  - rewrite get_fault_code_one_read. apply words_ok_after_call;
      [exact Hb | each_word].
  - intros fuel.
    destruct (modbus_fail_read_handler_log self fuel L_FB_RPM 2 b)
      as [n [_ Hn]].
    rewrite get_rpm_bus. eapply words_ok_after_reads; eassumption.
  - intros fuel.
    destruct (modbus_fail_read_handler_log self fuel L_FB_RPM 2 b)
      as [n [_ Hn]].
    rewrite get_linear_velocities_bus, get_rpm_bus.
    eapply words_ok_after_reads; eassumption.
  - intros fuel.
    destruct (modbus_fail_read_handler_log self fuel L_FB_POS_HI 4 b)
      as [n [_ Hn]].
    rewrite get_wheels_travelled_bus.
    eapply words_ok_after_reads; eassumption.
  - intros fuel.
    destruct (modbus_fail_read_handler_log self fuel L_FB_POS_HI 4 b)
      as [n [_ Hn]].
    rewrite get_wheels_tick_bus. eapply words_ok_after_reads; eassumption.
Qed.

Lemma driver_writes_only_words_witness :
  Forall words_ok
    (calls (snd (set_rpm default_controller (-5000) (7 # 2) (steady_bus [])))).
Proof.
  apply (proj1 (proj2 (proj2 (proj2 (proj2 (proj2 (proj2
           (driver_writes_only_words default_controller (steady_bus [])
              (Forall_nil_2 _))))))))).
Defined.

(** ** Signed words *)

Lemma np_int16_mod (z : Z) :
  -32768 <= z < 32768 -> np_int16 (z mod 65536) = z.
Proof.
  intros Hz. unfold np_int16.
  rewrite Zplus_mod_idemp_l. rewrite Z.mod_small; lia.
Qed.

Lemma np_int16_range (w : Z) : -32768 <= np_int16 w < 32768.
Proof.
  unfold np_int16. pose proof (Z.mod_pos_bound (w + 32768) 65536). lia.
Qed.

(** X11.  The command encoding [to_int16] and the feedback decoding
    [np.int16] are inverse to each other on 16 bits: the word [set_rpm]
    writes for an rpm, read as [get_rpm] reads a word, is the clipped and
    truncated rpm with its sign; and any register word, decoded and encoded
    again, is the same word. *)
Theorem rpm_word_round_trip :
  (forall rpm : Q,
     np_int16 (to_int16 (np_clip rpm (-3000) 3000))
     = py_int (np_clip rpm (-3000) 3000))
  /\ (forall val : Q, -32768 <= py_int val < 32768 ->
        np_int16 (to_int16 val) = py_int val)
  /\ (forall w : Z, 0 <= w < 65536 -> to_int16 (inject_Z (np_int16 w)) = w).
Proof.
  split; [|split].
  - intros rpm. unfold to_int16. rewrite land_0xFFFF.
    apply np_int16_mod.
    assert (-3000 <= py_int (np_clip rpm (-3000) 3000) <= 3000) as H
      by (apply (np_clip_word_range rpm (-3000) 3000); lia).
    lia.
  - intros val Hval. unfold to_int16. rewrite land_0xFFFF.
    now apply np_int16_mod.
  - intros w Hw. unfold to_int16. rewrite py_int_inject_Z, land_0xFFFF.
    unfold np_int16. rewrite Zminus_mod_idemp_l.
    replace (w + 32768 - 32768) with w by lia. apply Z.mod_small. lia.
Qed.

Lemma rpm_word_round_trip_witness :
  (0 <= 65036 < 65536) /\ to_int16 (inject_Z (np_int16 65036)) = 65036.
Proof.
  split; [lia|]. apply (proj2 (proj2 rpm_word_round_trip) 65036). lia.
Defined.

(** ** Pulse counts *)

Lemma split_mod_2_32 (dec : Z) :
  (dec / 65536) mod 65536 * 65536 + dec mod 65536 = dec mod 4294967296.
Proof.
  change 4294967296 with (65536 * 65536).
  rewrite Z.rem_mul_r by lia. lia.
Qed.

Lemma np_int32_mod (dec : Z) : np_int32 (dec mod 4294967296) = np_int32 dec.
Proof. unfold np_int32. now rewrite Zplus_mod_idemp_l. Qed.

(** Splitting any integer and reassembling the two words keeps its low 32
    bits, read as signed. *)
Lemma pulse_of_split_any (dec : Z) :
  pulse (Z.shiftr (Z.land dec 0xFFFF0000) 16) (Z.land dec 0x0000FFFF)
  = np_int32 dec.
Proof.
  rewrite pulse_signed_32, hi_word_mod, lo_word_mod.
  rewrite !Z.mod_mod by lia.
  now rewrite split_mod_2_32, np_int32_mod.
Qed.

(** X13.  The position feedback looks at the low 16 bits of each register
    only, and the sign of the count is bit 15 of the high word: the count
    is [hi * 65536 + lo] on these bits when that bit is clear, and
    2^32 less when it is set. *)
Theorem pulse_sign_and_bits (pul_hi pul_lo : Z) :
  (forall i j : Z,
     pulse (pul_hi + 65536 * i) (pul_lo + 65536 * j) = pulse pul_hi pul_lo)
  /\ (pul_hi mod 65536 < 32768 ->
      pulse pul_hi pul_lo = pul_hi mod 65536 * 65536 + pul_lo mod 65536)
  /\ (32768 <= pul_hi mod 65536 ->
      pulse pul_hi pul_lo
      = pul_hi mod 65536 * 65536 + pul_lo mod 65536 - 4294967296)
  /\ (pulse pul_hi pul_lo < 0 <-> 32768 <= pul_hi mod 65536).
Proof.
  pose proof (Z.mod_pos_bound pul_hi 65536) as Hhi.
  pose proof (Z.mod_pos_bound pul_lo 65536) as Hlo.
  assert (pul_hi mod 65536 < 32768 ->
          pulse pul_hi pul_lo = pul_hi mod 65536 * 65536 + pul_lo mod 65536)
    as Hpos.
  { intros H. rewrite pulse_signed_32. apply np_int32_small. lia. }
  assert (32768 <= pul_hi mod 65536 ->
          pulse pul_hi pul_lo
          = pul_hi mod 65536 * 65536 + pul_lo mod 65536 - 4294967296)
    as Hneg.
  { intros H. rewrite pulse_signed_32. unfold np_int32.
    rewrite <- (Z.mod_add _ (-1) 4294967296) by lia.
    rewrite Z.mod_small; lia. }
  split; [|split; [exact Hpos | split; [exact Hneg|]]].
  - intros i j. rewrite !pulse_signed_32.
    rewrite (Z.mul_comm 65536 i), (Z.mul_comm 65536 j).
    now rewrite !Z.mod_add by lia.
  - destruct (Z.lt_ge_cases (pul_hi mod 65536) 32768) as [H|H].
    + rewrite (Hpos H). lia.
    + rewrite (Hneg H). lia.
Qed.

Lemma pulse_sign_and_bits_witness :
  (32768 <= 0xFFFF mod 65536) /\ pulse 0xFFFF 0xFFFF = -1.
Proof.
  split; [discriminate|].
  rewrite (proj1 (proj2 (proj2 (pulse_sign_and_bits 0xFFFF 0xFFFF))));
    [reflexivity | discriminate].
Defined.

(** ** Symmetry and order of the command encodings *)

Lemma py_int_opp (x : Q) : py_int (- x) = - py_int x.
Proof.
  destruct x as [n d]. unfold py_int. simpl. apply Z.quot_opp_l. lia.
Qed.

Lemma np_clip_opp_3000 (rpm : Q) :
  (np_clip (- rpm) (-3000) 3000 == - np_clip rpm (-3000) 3000)%Q.
Proof.
  destruct (Qlt_le_dec 3000 rpm) as [Hhi|Hhi].
  - rewrite (np_clip_above rpm (-3000) 3000) by (discriminate || assumption).
    rewrite (np_clip_below (- rpm) (-3000) 3000); [reflexivity | discriminate | lra].
  - destruct (Qlt_le_dec rpm (-3000)) as [Hlo|Hlo].
    + rewrite (np_clip_below rpm (-3000) 3000) by (discriminate || assumption).
      rewrite (np_clip_above (- rpm) (-3000) 3000); [reflexivity | discriminate | lra].
    + rewrite (np_clip_inside rpm (-3000) 3000) by assumption.
      apply np_clip_inside; lra.
Qed.

Lemma np_clip_mono (x y lo hi : Q) :
  (x <= y)%Q -> (np_clip x lo hi <= np_clip y lo hi)%Q.
Proof.
  intros H. unfold np_clip.
  apply Q.min_le_compat_r. now apply Q.max_le_compat_r.
Qed.

Lemma saturate_ms_mono (x y : Q) :
  (x <= y)%Q -> (saturate_ms x <= saturate_ms y)%Q.
Proof.
  intros H.
  destruct (saturate_ms_cases x) as [[Hx ->]|[[Hx ->]|[[Hx1 Hx2] ->]]];
    destruct (saturate_ms_cases y) as [[Hy ->]|[[Hy ->]|[[Hy1 Hy2] ->]]];
    lra.
Qed.

(** ** Register blocks *)

Lemma new_calls_after_call (b : bus) (rq : request) :
  new_calls b (record_call b rq) = [rq].
Proof. unfold new_calls. simpl. apply drop_app_length. Qed.

Lemma new_calls_after_reads (b b' : bus) (n : nat) (rq : request) :
  calls b' = calls b ++ replicate n rq ->
  registers_addressed <$> new_calls b b'
  = replicate n (registers_addressed rq).
Proof.
  intros H. unfold new_calls. rewrite H, drop_app_length.
  apply fmap_replicate.
Qed.


(** ** The mirrored right wheel, in double precision *)

Lemma binary_round_aux_negb (prec emax : Z) (s : bool) (m e : Z)
    (l : SpecFloat.location) :
  SpecFloat.binary_round_aux prec emax (negb s) m e l
  = SFopp (SpecFloat.binary_round_aux prec emax s m e l).
Proof.
  unfold SpecFloat.binary_round_aux.
  destruct (SpecFloat.shr_fexp prec emax m e l) as [mrs' e'].
  destruct (SpecFloat.shr_fexp prec emax _ e' SpecFloat.loc_Exact)
    as [mrs'' e''].
  destruct (SpecFloat.shr_m mrs''); try reflexivity.
  destruct (e'' <=? emax - prec); reflexivity.
Qed.

Lemma SFmul_opp_l (prec emax : Z) (x y : spec_float) :
  SFmul prec emax (SFopp x) y = SFopp (SFmul prec emax x y).
Proof.
  destruct x as [sx|sx| |sx mx ex], y as [sy|sy| |sy my ey]; simpl;
    try reflexivity; try (now rewrite <- Bool.negb_xorb_l).
  rewrite <- Bool.negb_xorb_l. apply binary_round_aux_negb.
Qed.

Lemma SFdiv_opp_l (prec emax : Z) (x y : spec_float) :
  SFdiv prec emax (SFopp x) y = SFopp (SFdiv prec emax x y).
Proof.
  destruct x as [sx|sx| |sx mx ex], y as [sy|sy| |sy my ey]; simpl;
    try reflexivity; try (now rewrite <- Bool.negb_xorb_l).
  destruct (SpecFloat.SFdiv_core_binary prec emax (Z.pos mx) ex (Z.pos my) ey)
    as [[mz ez] lz].
  rewrite <- Bool.negb_xorb_l. apply binary_round_aux_negb.
Qed.

Lemma float_mul_opp_l (x y : float) : (- x * y = - (x * y))%float.
Proof.
  apply Prim2SF_inj.
  rewrite FloatAxioms.mul_spec, !FloatAxioms.opp_spec, FloatAxioms.mul_spec.
  apply SFmul_opp_l.
Qed.

Lemma float_div_opp_l (x y : float) : (- x / y = - (x / y))%float.
Proof.
  apply Prim2SF_inj.
  rewrite FloatAxioms.div_spec, !FloatAxioms.opp_spec, FloatAxioms.div_spec.
  apply SFdiv_opp_l.
Qed.

Lemma rpm_to_linear_opp (self : Controller) (rpm : float) :
  rpm_to_linear self (- rpm) = (- rpm_to_linear self rpm)%float.
Proof.
  unfold rpm_to_linear.
  now rewrite !float_mul_opp_l, float_div_opp_l, float_mul_opp_l.
Qed.

(** X18.  The right wheel's velocity is the exact mirror image: in IEEE
    double arithmetic, negating the rpm before the conversion gives
    bit for bit the negated conversion, for every rpm and wheel radius
    (also for zero, whose right velocity is then [-0.0], for infinities and
    for NaN).  So whatever [get_rpm] does, [get_linear_velocities] ends the
    same way, and where [get_rpm] returns [(rpmL, rpmR)] it returns
    [(rpm_to_linear rpmL, - rpm_to_linear rpmR)]. *)
Theorem right_velocity_is_mirrored
    (self : Controller) (fuel : nat) (b : bus) :
  (forall rpm : float,
     rpm_to_linear self (- rpm) = (- rpm_to_linear self rpm)%float)
  /\ get_linear_velocities self fuel b
     = match get_rpm self fuel b with
       | (Returned (rpmL, rpmR), b') =>
           (Returned (rpm_to_linear self rpmL,
                      (- rpm_to_linear self rpmR)%float), b')
       | (Raised e, b') => (Raised e, b')
       | (Spinning, b') => (Spinning, b')
       end.
Proof.
  split; [apply rpm_to_linear_opp|].
  unfold get_linear_velocities. open_monad.
  destruct (get_rpm self fuel b) as [[[rpmL rpmR]|e|] b']; try reflexivity.
  unfold ret. now rewrite rpm_to_linear_opp.
Qed.

(** ** A read of no word *)

(** X19.  What makes a reply count as failed is the copy of its registers,
    not the reply itself: asked for no word at all, the handler never looks
    at the reply, so even a reply without [registers] is taken as a success
    (the empty buffer, after one read, nothing printed), whereas for any
    positive word count the same reply is printed and the read repeated. *)
Theorem modbus_fail_read_handler_ignores_reply_for_no_word
    (self : Controller) (fuel : nat) (ADDR : Z) (b : bus) :
  next_reply b = NoRegisters ->
  modbus_fail_read_handler self (S fuel) ADDR 0 b
  = (Returned [], record_call b (ReadHoldingRegisters ADDR 0 (ID self)))
  /\ (forall WORD : nat, (0 < WORD)%nat ->
        modbus_fail_read_handler self (S fuel) ADDR WORD b
        = modbus_fail_read_handler self fuel ADDR WORD
            (record_print
               (record_call b (ReadHoldingRegisters ADDR WORD (ID self)))
               attribute_error_text)).
Proof.
  intros Hr. split; [reflexivity|].
  intros WORD HW. unfold modbus_fail_read_handler.
  now rewrite read_loop_retry.
Qed.

Lemma modbus_fail_read_handler_ignores_reply_for_no_word_witness :
  modbus_fail_read_handler default_controller 1 L_FB_RPM 0 dead_bus
  = (Returned [], record_call dead_bus (ReadHoldingRegisters L_FB_RPM 0 1)).
Proof.
  exact (proj1 (modbus_fail_read_handler_ignores_reply_for_no_word
                  default_controller 0 L_FB_RPM dead_bus eq_refl)).
Defined.

(** * The angle command in Python's arithmetic *)

Lemma all_pow_sound (f : Z -> bool) :
  forall (k : nat) (lo : Z),
    all_pow f lo k = true ->
    forall z, lo <= z < lo + 2 ^ Z.of_nat k -> f z = true.
Proof.
  induction k as [|k IH]; intros lo H z Hz.
  - simpl in *. replace z with lo by lia. exact H.
  - simpl in H. apply andb_true_iff in H. destruct H as [Hlow Hhigh].
    rewrite Nat2Z.inj_succ, Z.pow_succ_r in Hz by lia.
    destruct (Z.lt_ge_cases z (lo + 2 ^ Z.of_nat k)) as [Hlt|Hge].
    + apply (IH lo Hlow). lia.
    + apply (IH (lo + 2 ^ Z.of_nat k) Hhigh). lia.
Qed.

Lemma count_is_true (deg c : Z) :
  count_is deg c = true ->
  Binary64.dec_of (Binary64.PyLong deg) = Returned c.
Proof.
  unfold count_is.
  destruct (Binary64.dec_of (Binary64.PyLong deg)) as [dec|e|];
    try discriminate.
  intros H. apply Z.eqb_eq in H. now subst.
Qed.

(** The count of the exact reading, for a whole number of degrees. *)
Lemma exact_count (z : Z) :
  py_int (map (inject_Z z) (-1440) 1440 (-65536) 65536)
  = Z.quot (2048 * z) 45.
Proof.
  rewrite (py_int_Qeq _ (inject_Z z * (2048 # 45))) by apply map_linear.
  unfold py_int. simpl. now rewrite (Z.mul_comm z 2048).
Qed.

(** Evaluated for each whole number of degrees from -32768 to 32767:
    Python's count is the truncated exact value. *)
Lemma whole_degrees_checked :
  all_pow (fun z => count_is z (Z.quot (2048 * z) 45)) (-32768) 16 = true.
Proof. vm_compute. reflexivity. Qed.

Lemma whole_degrees_exact (z : Z) :
  -32768 <= z < 32768 ->
  Binary64.dec_of (Binary64.PyLong z) = Returned (Z.quot (2048 * z) 45).
Proof.
  intros Hz. apply count_is_true.
  apply (all_pow_sound _ 16 (-32768) whole_degrees_checked).
  change (2 ^ Z.of_nat 16) with 65536. lia.
Qed.

(** On whole degrees of that window the exact reading and Python's
    arithmetic give the same count. *)
Lemma exact_reading_agrees (z : Z) :
  -32768 <= z < 32768 ->
  Binary64.dec_of (Binary64.PyLong z)
  = Returned (py_int (map (inject_Z z) (-1440) 1440 (-65536) 65536)).
Proof.
  intros Hz. rewrite exact_count. now apply whole_degrees_exact.
Qed.

Lemma dec_of_float (f : float) :
  Binary64.dec_of (Binary64.PyFloat f)
  = Binary64.int_of_float
      ((f - (-1440)) * 131072 / 2880 + (-65536))%float.
Proof. reflexivity. Qed.

(** Known results of the interpreter, reproduced: a float inside the domain
    whose count the exact reading misses by one, a float and its opposite
    that do not mirror, large ints, an int and the float of the same value
    that differ, and the inputs on which [int()] or the division raises. *)
Lemma binary64_samples :
  Binary64.deg_to_32bitArray (Binary64.PyFloat 0x1.67fffffffffffp-6)
  = Returned [0; 1]
  /\ Binary64.dec_of (Binary64.PyFloat 0x1.a0459fffffffep+8) = Returned 18945
  /\ Binary64.dec_of (Binary64.PyFloat (-0x1.a0459fffffffep+8))
     = Returned (-18944)
  /\ Binary64.deg_to_32bitArray (Binary64.PyLong (10 ^ 18 + 1))
     = Returned [26396; 32768]
  /\ Binary64.dec_of (Binary64.PyLong (45 * (2 ^ 53 + 1))) = Returned (2 ^ 64)
  /\ Binary64.dec_of (Binary64.PyLong (2 ^ 62))
     = Returned 209882954794206461952
  /\ Binary64.dec_of (Binary64.PyFloat 0x1p+62)
     = Returned 209882954794206429184
  /\ Binary64.dec_of (Binary64.PyFloat 0x1.d2a1be4048f90p+1009)
     = Raised OverflowError
  /\ Binary64.dec_of (Binary64.PyFloat nan) = Raised ValueError
  /\ Binary64.dec_of (Binary64.PyFloat infinity) = Raised OverflowError
  /\ Binary64.dec_of (Binary64.PyLong (10 ^ 400)) = Raised OverflowError.
Proof. repeat split; vm_compute; reflexivity. Qed.

Lemma set_relative_angle_cases
    (self : Controller) (ang_L ang_R : Binary64.pynum) (b : bus) :
  Binary64.set_relative_angle self ang_L ang_R b
  = match Binary64.deg_to_32bitArray ang_L with
    | Returned L_array =>
        match Binary64.deg_to_32bitArray ang_R with
        | Returned R_array =>
            (Returned (next_reply b),
             record_call b
               (WriteRegisters L_CMD_REL_POS_HI (L_array ++ R_array)
                  (ID self)))
        | Raised e => (Raised e, b)
        | Spinning => (Spinning, b)
        end
    | Raised e => (Raised e, b)
    | Spinning => (Spinning, b)
    end.
Proof.
  unfold Binary64.set_relative_angle, lift. open_monad.
  destruct (Binary64.deg_to_32bitArray ang_L) as [L_array|e|];
    reflexivity.
Qed.

Lemma deg_to_32bitArray_of_dec (deg : Binary64.pynum) (dec : Z) :
  Binary64.dec_of deg = Returned dec ->
  Binary64.deg_to_32bitArray deg
  = Returned [(dec / 65536) mod 65536; dec mod 65536].
Proof.
  intros H. unfold Binary64.deg_to_32bitArray. rewrite H.
  unfold mbind, outcome_bind. now rewrite hi_word_mod, lo_word_mod.
Qed.

Lemma quot_beyond_bounds (z : Z) :
  (1440 < z -> 65536 < Z.quot (2048 * z) 45)
  /\ (z < -1440 -> Z.quot (2048 * z) 45 < -65536).
Proof.
  split; intros Hz.
  - apply Z.lt_le_trans with (m := Z.quot (2048 * 1441) 45);
      [reflexivity|].
    apply Z.quot_le_mono; lia.
  - apply Z.le_lt_trans with (m := Z.quot (2048 * -1441) 45);
      [|reflexivity].
    apply Z.quot_le_mono; lia.
Qed.



(** X12.  Nothing guards the 32-bit range of the angle command.  Whenever
    the count computed for a degree value is an integer [dec] (no NaN, no
    infinity), [deg_to_32bitArray] returns two register words holding the
    low 32 bits of [dec], so the position feedback's reassembly reads
    [np.int32(dec)] from them: a count of 2^31 or more reads back smaller,
    one below -2^31 larger, and no error is raised. *)
Theorem deg_to_32bitArray_wraps (deg : Binary64.pynum) (dec : Z) :
  Binary64.dec_of deg = Returned dec ->
  exists HI_WORD LO_WORD,
    Binary64.deg_to_32bitArray deg = Returned [HI_WORD; LO_WORD]
    /\ is_word HI_WORD
    /\ is_word LO_WORD
    /\ pulse HI_WORD LO_WORD = np_int32 dec
    /\ (2147483648 <= dec -> pulse HI_WORD LO_WORD < dec)
    /\ (dec < -2147483648 -> dec < pulse HI_WORD LO_WORD).
Proof.
  intros H.
  exists (Z.shiftr (Z.land dec 0xFFFF0000) 16), (Z.land dec 0x0000FFFF).
  pose proof (np_int32_range dec) as [Hr _].
  split; [|split; [|split; [|split; [|split]]]].
  - unfold Binary64.deg_to_32bitArray. now rewrite H.
  - rewrite hi_word_mod. apply is_word_mod.
  - rewrite lo_word_mod. apply is_word_mod.
  - apply pulse_of_split_any.
  - intros Hbig. rewrite pulse_of_split_any. lia.
  - intros Hbig. rewrite pulse_of_split_any. lia.
Qed.

Lemma deg_to_32bitArray_wraps_witness :
  exists HI_WORD LO_WORD,
    Binary64.deg_to_32bitArray (Binary64.PyLong 47185920)
    = Returned [HI_WORD; LO_WORD]
    /\ is_word HI_WORD
    /\ is_word LO_WORD
    /\ pulse HI_WORD LO_WORD = np_int32 2147483648
    /\ (2147483648 <= 2147483648 -> pulse HI_WORD LO_WORD < 2147483648)
    /\ (2147483648 < -2147483648 -> 2147483648 < pulse HI_WORD LO_WORD).
Proof.
  apply (deg_to_32bitArray_wraps (Binary64.PyLong 47185920) 2147483648).
  vm_compute. reflexivity.
Defined.

(** X14.  Forward and reverse commands mirror each other.  The rpm written
    for [-rpm] is the opposite of the one written for [rpm] (clip bounds
    are symmetric and [int()] truncates toward zero), so the two words add
    up to 0 modulo 2^16.  For a whole number of degrees between -32767 and
    32767 the count encoded for [-deg] is the opposite of the count for
    [deg]; for floats the double rounding of [deg + 1440] can break this by
    one count, as for 416.27197265624989. *)
Theorem commands_are_odd :
  (forall rpm : Q,
     py_int (np_clip (- rpm) (-3000) 3000)
     = - py_int (np_clip rpm (-3000) 3000))
  /\ (forall rpm : Q,
        (to_int16 (np_clip (- rpm) (-3000) 3000)
         + to_int16 (np_clip rpm (-3000) 3000)) mod 65536 = 0)
  /\ (forall deg : Z, -32768 < deg < 32768 ->
        exists dec,
          Binary64.dec_of (Binary64.PyLong deg) = Returned dec
          /\ Binary64.dec_of (Binary64.PyLong (- deg)) = Returned (- dec))
  /\ Binary64.dec_of (Binary64.PyFloat 0x1.a0459fffffffep+8) = Returned 18945
  /\ Binary64.dec_of (Binary64.PyFloat (-0x1.a0459fffffffep+8))
     = Returned (-18944).
Proof.
  assert (forall rpm : Q,
            py_int (np_clip (- rpm) (-3000) 3000)
            = - py_int (np_clip rpm (-3000) 3000)) as Hrpm.
  { intros rpm. rewrite <- py_int_opp. apply py_int_Qeq, np_clip_opp_3000. }
  split; [exact Hrpm|]. split; [|split].
  - intros rpm. unfold to_int16. rewrite !land_0xFFFF, Hrpm.
    rewrite <- Zplus_mod.
    replace (- py_int (np_clip rpm (-3000) 3000)
             + py_int (np_clip rpm (-3000) 3000)) with 0 by lia.
    reflexivity.
  - intros deg Hdeg. exists (Z.quot (2048 * deg) 45). split.
    + apply whole_degrees_exact. lia.
    + rewrite whole_degrees_exact by lia.
      now rewrite Z.mul_opp_r, Z.quot_opp_l by lia.
  - split; vm_compute; reflexivity.
Qed.

Lemma commands_are_odd_witness :
  exists dec,
    Binary64.dec_of (Binary64.PyLong 2000) = Returned dec
    /\ Binary64.dec_of (Binary64.PyLong (- 2000)) = Returned (- dec).
Proof.
  apply (proj1 (proj2 (proj2 commands_are_odd)) 2000). lia.
Defined.

(** X15.  The command encodings keep the order of their inputs: a larger
    time, rpm (as a signed value) or speed ceiling is never written as a
    smaller one, and among whole numbers of degrees from -32768 to 32767
    a larger angle never gets a smaller count. *)
Theorem encodings_are_monotone (x y : Q) :
  (x <= y)%Q ->
  py_int (saturate_ms x) <= py_int (saturate_ms y)
  /\ py_int (np_clip x (-3000) 3000) <= py_int (np_clip y (-3000) 3000)
  /\ np_int16 (to_int16 (np_clip x (-3000) 3000))
     <= np_int16 (to_int16 (np_clip y (-3000) 3000))
  /\ py_int (np_clip x 1 1000) <= py_int (np_clip y 1 1000)
  /\ (forall deg deg' : Z,
        -32768 <= deg -> deg <= deg' -> deg' < 32768 ->
        exists dec dec',
          Binary64.dec_of (Binary64.PyLong deg) = Returned dec
          /\ Binary64.dec_of (Binary64.PyLong deg') = Returned dec'
          /\ dec <= dec').
Proof.
  intros H.
  assert (py_int (np_clip x (-3000) 3000) <= py_int (np_clip y (-3000) 3000))
    as Hrpm by now apply py_int_mono, np_clip_mono.
  split; [now apply py_int_mono, saturate_ms_mono|].
  split; [exact Hrpm|]. split; [|split].
  - unfold to_int16. rewrite !land_0xFFFF.
    assert (forall r, -3000 <= py_int (np_clip r (-3000) 3000) <= 3000) as Hr
      by (intros r; apply (np_clip_word_range r (-3000) 3000); lia).
    pose proof (Hr x). pose proof (Hr y).
    rewrite !np_int16_mod by lia. exact Hrpm.
  - now apply py_int_mono, np_clip_mono.
  - intros deg deg' Hlo Hle Hhi.
    exists (Z.quot (2048 * deg) 45), (Z.quot (2048 * deg') 45).
    split; [apply whole_degrees_exact; lia|].
    split; [apply whole_degrees_exact; lia|].
    apply Z.quot_le_mono; lia.
Qed.

Lemma encodings_are_monotone_witness :
  exists dec dec',
    Binary64.dec_of (Binary64.PyLong (-721)) = Returned dec
    /\ Binary64.dec_of (Binary64.PyLong 1441) = Returned dec'
    /\ dec <= dec'.
Proof.
  refine (proj2 (proj2 (proj2 (proj2
            (encodings_are_monotone (-721 # 1) (1441 # 1) _))))
            (-721) 1441 _ _ _).
  - discriminate.
  - lia.
  - lia.
  - lia.
Defined.

(** Evaluated for each [k] from -65536 to 65535: Python's count for
    [360 * k] degrees is [16384 * k]. *)
Lemma whole_turns_checked :
  all_pow (fun k => count_is (360 * k) (k * 16384)) (-65536) 17 = true.
Proof. vm_compute. reflexivity. Qed.

(** X16.  The angle command counts in the unit of the position feedback.
    A multiple [45 * k] of degrees between -32768 and 32767 is encoded as
    exactly [2048 * k] counts; for every [k] from -65536 to 65535, [k] full
    turns are encoded as exactly [k * cpr] counts, and the two words
    written for them read back through the feedback's reassembly as
    [k * cpr]. *)
Theorem whole_turns_are_cpr_counts (k : Z) :
  (-32768 <= 45 * k < 32768 ->
   Binary64.dec_of (Binary64.PyLong (45 * k)) = Returned (2048 * k))
  /\ (-65536 <= k < 65536 ->
      Binary64.dec_of (Binary64.PyLong (360 * k)) = Returned (k * cpr)
      /\ exists HI_WORD LO_WORD,
           Binary64.deg_to_32bitArray (Binary64.PyLong (360 * k))
           = Returned [HI_WORD; LO_WORD]
           /\ pulse HI_WORD LO_WORD = k * cpr).
Proof.
  split.
  - intros Hk. rewrite whole_degrees_exact by assumption.
    replace (2048 * (45 * k)) with (2048 * k * 45) by lia.
    now rewrite Z.quot_mul by lia.
  - intros Hk.
    assert (Binary64.dec_of (Binary64.PyLong (360 * k)) = Returned (k * cpr))
      as H360.
    { apply count_is_true.
      apply (all_pow_sound _ 17 (-65536) whole_turns_checked).
      change (2 ^ Z.of_nat 17) with 131072. lia. }
    split; [exact H360|].
    eexists. eexists. split.
    + unfold Binary64.deg_to_32bitArray. rewrite H360. reflexivity.
    + rewrite pulse_of_split_any. apply np_int32_small. unfold cpr. lia.
Qed.

Lemma whole_turns_are_cpr_counts_witness :
  Binary64.dec_of (Binary64.PyLong (45 * -3)) = Returned (2048 * -3)
  /\ Binary64.dec_of (Binary64.PyLong (360 * -3)) = Returned (-3 * cpr)
  /\ exists HI_WORD LO_WORD,
       Binary64.deg_to_32bitArray (Binary64.PyLong (360 * -3))
       = Returned [HI_WORD; LO_WORD]
       /\ pulse HI_WORD LO_WORD = -3 * cpr.
Proof.
  split.
  - apply (proj1 (whole_turns_are_cpr_counts (-3))). lia.
  - apply (proj2 (whole_turns_are_cpr_counts (-3))). lia.
Defined.
